(** * Cryptopia node.js client: request signing and execution

    A shallow embedding of [src/index.js]: the client object, the two
    request builders ([privateRequest], [publicRequest]), the executor
    ([executeRequest]) and the error-code table, together with the parts
    of the JavaScript host they call (value conversions, [JSON.stringify],
    [encodeURIComponent], base64, MD5 and HMAC-SHA256).

    Strings are byte strings: a JavaScript string is represented by its
    UTF-8 encoding, which is what the hash functions and
    [Buffer.byteLength] see.  Numbers are the integer-valued ones. *)

From Stdlib Require Import ZArith List String Ascii Bool Lia DecimalString.
Import ListNotations.
Local Open Scope string_scope.
Local Open Scope Z_scope.

(** ** JavaScript values *)

Module JS.

Set Warnings "-register-all".

(** The values a caller can hand to the client and a response can carry.
    An object is the list of its own enumerable properties in enumeration
    order, with distinct keys.  A function is kept as its source text:
    the client only ever asks a function for its type, its truth value
    and its string form.  These are finite trees of plain data: an
    object that contains itself, a symbol, a [BigInt], and an object
    with accessors or a [toJSON] member are not among them. *)
Inductive value : Type :=
| VUndefined
| VNull
| VBool (b : bool)
| VNum (n : Z)
| VStr (s : string)
| VArr (items : list value)
| VObj (fields : list (string * value))
| VFun (source : string).

(** An [Error] object: its [name], its [message], and the message of the
    error it wraps, if any. *)
Record JsError : Type := mkError {
  name : value;
  message : string;
  cause : option string
}.

Definition join (sep : string) (parts : list string) : string :=
  String.concat sep parts.

(** [Number.prototype.toString] on an integer below [10 ^ 21] in
    magnitude, which JavaScript prints in full. *)
Definition Number_toString (n : Z) : string :=
  NilZero.string_of_int (Z.to_int n).

(** [typeof]. *)
Definition typeof (v : value) : string :=
  match v with
  | VUndefined => "undefined"
  | VNull => "object"
  | VBool _ => "boolean"
  | VNum _ => "number"
  | VStr _ => "string"
  | VArr _ | VObj _ => "object"
  | VFun _ => "function"
  end.

(** [ToBoolean]: what [!x], [x || d] and [if (x)] test. *)
Definition ToBoolean (v : value) : bool :=
  match v with
  | VUndefined | VNull => false
  | VBool b => b
  | VNum n => negb (n =? 0)
  | VStr s => negb (s =? "")%string
  | VArr _ | VObj _ | VFun _ => true
  end.

(** [ToString], as template literals and [String(x)] apply it.  An array
    joins its elements with commas, [null] and [undefined] elements
    giving the empty string; a plain object gives ["[object Object]"]. *)
Fixpoint ToString (v : value) : string :=
  match v with
  | VUndefined => "undefined"
  | VNull => "null"
  | VBool true => "true"
  | VBool false => "false"
  | VNum n => Number_toString n
  | VStr s => s
  | VArr items =>
      join "," (map (fun x => match x with
                              | VUndefined | VNull => ""
                              | _ => ToString x
                              end) items)
  | VObj _ => "[object Object]"
  | VFun source => source
  end.

(** A value that may be missing ([undefined]) and is a string otherwise:
    the constructor's [key], [secret] and [hostname]. *)
Definition truthy_string (s : option string) : bool :=
  match s with
  | Some t => negb (t =? "")%string
  | None => false
  end.

Definition template (s : option string) : string :=
  match s with
  | Some t => t
  | None => "undefined"
  end.

(** *** Properties *)

Definition index_names (n : nat) : list string :=
  map (fun i => Number_toString (Z.of_nat i)) (seq 0 n).

(** The names of the own properties of a value. *)
Definition own_keys (v : value) : list string :=
  match v with
  | VObj fields => map fst fields
  | VArr items => index_names (List.length items) ++ ["length"]
  | VStr s => index_names (String.length s) ++ ["length"]
  | VFun _ => ["length"; "name"; "prototype"]
  | _ => []
  end.

Fixpoint assoc {A : Type} (key : string) (l : list (string * A)) : option A :=
  match l with
  | [] => None
  | (k, x) :: rest => if (k =? key)%string then Some x else assoc key rest
  end.

(** The members every object inherits from [Object.prototype]; each is
    a native function, printed under its own name ([constructor] is
    [Object]). *)
Definition Object_prototype : list string :=
  [ "constructor"; "toString"; "toLocaleString"; "valueOf";
    "hasOwnProperty"; "isPrototypeOf"; "propertyIsEnumerable";
    "__defineGetter__"; "__defineSetter__";
    "__lookupGetter__"; "__lookupSetter__" ].

Definition inherited (key : string) : value :=
  if existsb (String.eqb key) Object_prototype
  then VFun ("function " ++ (if (key =? "constructor")%string then "Object" else key)
             ++ "() { [native code] }")
  else if (key =? "__proto__")%string then VObj []
  else VUndefined.

(** [table[key]] on a plain object: an own property, else an inherited
    one, else [undefined]. *)
Definition lookup (fields : list (string * value)) (key : string) : value :=
  match assoc key fields with
  | Some x => x
  | None => inherited key
  end.

(** [v.key] for the keys the client reads (["error_code"], ["Error"],
    ["Data"]), none of which names a member of a built-in prototype.
    [None] is the [TypeError] of reading a property of [null] or
    [undefined]. *)
Definition Get (v : value) (key : string) : option value :=
  match v with
  | VUndefined | VNull => None
  | VObj fields => Some (lookup fields key)
  | VArr items =>
      if (key =? "length")%string then Some (VNum (Z.of_nat (List.length items)))
      else Some (match assoc key (combine (index_names (List.length items)) items) with
                 | Some x => x
                 | None => inherited key
                 end)
  | VStr s =>
      if (key =? "length")%string then Some (VNum (Z.of_nat (String.length s)))
      else Some (inherited key)
  | VBool _ | VNum _ | VFun _ => Some (inherited key)
  end.

End JS.

(** ** The host's functions *)

Module Host.
Import JS.

Definition hex_digit (upper : bool) (d : Z) : ascii :=
  ascii_of_nat (Z.to_nat (if d <? 10 then 48 + d
                          else (if upper then 55 else 87) + d)).

Definition hex_byte (upper : bool) (b : Z) : string :=
  String (hex_digit upper (b / 16)) (String (hex_digit upper (b mod 16)) "").

Definition code (c : ascii) : Z := Z.of_nat (nat_of_ascii c).

Definition chr (b : Z) : ascii := ascii_of_nat (Z.to_nat b).

Definition bytes_of_string (s : string) : list Z :=
  map code (list_ascii_of_string s).

Definition string_of_bytes (l : list Z) : string :=
  string_of_list_ascii (map chr l).

Definition hex (l : list Z) : string :=
  String.concat "" (map (hex_byte false) l).

(** [Buffer.byteLength(s)]: the length of the UTF-8 encoding. *)
Definition Buffer_byteLength (s : string) : Z := Z.of_nat (String.length s).

(** *** [JSON.stringify] *)

(** One character of a JSON string literal: the quote, the backslash
    and the control characters are escaped, all else is copied. *)
Definition quote_char (c : ascii) : string :=
  let n := code c in
  if n =? 34 then "\" ++ String c ""
  else if n =? 92 then "\\"
  else if n =? 8 then "\b"
  else if n =? 9 then "\t"
  else if n =? 10 then "\n"
  else if n =? 12 then "\f"
  else if n =? 13 then "\r"
  else if n <? 32 then "\u00" ++ hex_byte false n
  else String c "".

Fixpoint quote_chars (s : string) : string :=
  match s with
  | EmptyString => ""
  | String c rest => quote_char c ++ quote_chars rest
  end.

Definition QuoteJSONString (s : string) : string :=
  String (chr 34) (quote_chars s) ++ String (chr 34) "".

(** [JSON.stringify(v)]; [None] is the result [undefined], which a
    function or [undefined] gives.  Inside an array such a value is
    written [null], inside an object its property is left out.  On
    the values of [value] it never throws; the inputs on which
    JavaScript's does (an object that contains itself, a [BigInt], a
    throwing [toJSON]) are outside the model. *)
Fixpoint JSON_stringify (v : value) : option string :=
  match v with
  | VUndefined | VFun _ => None
  | VNull => Some "null"
  | VBool true => Some "true"
  | VBool false => Some "false"
  | VNum n => Some (Number_toString n)
  | VStr s => Some (QuoteJSONString s)
  | VArr items =>
      Some ("[" ++ join "," (map (fun x => match JSON_stringify x with
                                           | Some t => t
                                           | None => "null"
                                           end) items) ++ "]")
  | VObj fields =>
      Some ("{" ++ join "," (flat_map (fun p => match JSON_stringify (snd p) with
                                                | Some t => [QuoteJSONString (fst p) ++ ":" ++ t]
                                                | None => []
                                                end) fields) ++ "}")
  end.

(** *** [encodeURIComponent] and [toLowerCase] *)

Definition is_alnum (n : Z) : bool :=
  ((48 <=? n) && (n <=? 57)) || ((65 <=? n) && (n <=? 90)) || ((97 <=? n) && (n <=? 122)).

(** The characters [encodeURIComponent] leaves alone: letters, digits
    and [- _ . ! ~ * ' ( )]. *)
Definition unreserved (n : Z) : bool :=
  is_alnum n || existsb (Z.eqb n) [45; 95; 46; 33; 126; 42; 39; 40; 41].

Definition encode_char (c : ascii) : string :=
  if unreserved (code c) then String c "" else "%" ++ hex_byte true (code c).

Fixpoint encodeURIComponent (s : string) : string :=
  match s with
  | EmptyString => ""
  | String c rest => encode_char c ++ encodeURIComponent rest
  end.

Definition lower_char (c : ascii) : ascii :=
  let n := code c in
  if (65 <=? n) && (n <=? 90) then chr (n + 32) else c.

(** [String.prototype.toLowerCase] on ASCII text, which is all the
    client applies it to (the output of [encodeURIComponent]). *)
Fixpoint toLowerCase (s : string) : string :=
  match s with
  | EmptyString => ""
  | String c rest => String (lower_char c) (toLowerCase rest)
  end.

End Host.
(** ** Base64, MD5 and HMAC-SHA256 *)

Module Crypto.
Import Host.

(** *** Base64 *)

Definition base64_alphabet : string :=
  "ABCDEFGHIJKLMNOPQRSTUVWXYZabcdefghijklmnopqrstuvwxyz0123456789+/".

Definition base64_char (n : Z) : ascii :=
  match String.get (Z.to_nat n) base64_alphabet with
  | Some c => c
  | None => "="%char
  end.

(** [buffer.toString('base64')]. *)
Fixpoint base64_encode (l : list Z) : string :=
  match l with
  | [] => ""
  | [a] =>
      String (base64_char (Z.shiftr a 2))
        (String (base64_char (Z.shiftl (Z.land a 3) 4)) "==")
  | [a; b] =>
      String (base64_char (Z.shiftr a 2))
        (String (base64_char (Z.lor (Z.shiftl (Z.land a 3) 4) (Z.shiftr b 4)))
           (String (base64_char (Z.shiftl (Z.land b 15) 2)) "="))
  | a :: b :: c :: rest =>
      String (base64_char (Z.shiftr a 2))
        (String (base64_char (Z.lor (Z.shiftl (Z.land a 3) 4) (Z.shiftr b 4)))
           (String (base64_char (Z.lor (Z.shiftl (Z.land b 15) 2) (Z.shiftr c 6)))
              (String (base64_char (Z.land c 63)) (base64_encode rest))))
  end.

(** The value of a base64 digit; the URL-safe [-] and [_] are read as
    [+] and [/]. *)
Definition unbase64 (c : ascii) : option Z :=
  let n := code c in
  if (65 <=? n) && (n <=? 90) then Some (n - 65)
  else if (97 <=? n) && (n <=? 122) then Some (n - 71)
  else if (48 <=? n) && (n <=? 57) then Some (n + 4)
  else if (n =? 43) || (n =? 45) then Some 62
  else if (n =? 47) || (n =? 95) then Some 63
  else None.

(** The digits of a base64 text as node reads it: a character outside
    the alphabet is skipped, the first [=] ends the text. *)
Fixpoint sextets (s : string) : list Z :=
  match s with
  | EmptyString => []
  | String c rest =>
      if code c =? 61 then []
      else match unbase64 c with
           | Some v => v :: sextets rest
           | None => sextets rest
           end
  end.

Fixpoint bytes_of_sextets (l : list Z) : list Z :=
  match l with
  | a :: b :: c :: d :: rest =>
      Z.lor (Z.shiftl a 2) (Z.shiftr b 4)
      :: Z.lor (Z.shiftl (Z.land b 15) 4) (Z.shiftr c 2)
      :: Z.lor (Z.shiftl (Z.land c 3) 6) d
      :: bytes_of_sextets rest
  | [a; b; c] =>
      [ Z.lor (Z.shiftl a 2) (Z.shiftr b 4);
        Z.lor (Z.shiftl (Z.land b 15) 4) (Z.shiftr c 2) ]
  | [a; b] => [ Z.lor (Z.shiftl a 2) (Z.shiftr b 4) ]
  | _ => []
  end.

(** [new Buffer(s, 'base64')]. *)
Definition base64_decode (s : string) : list Z :=
  bytes_of_sextets (sextets s).

(** *** 32-bit words *)

Definition wrap32 (x : Z) : Z := x mod 2 ^ 32.

Definition add32 (a b : Z) : Z := wrap32 (a + b).

Definition not32 (x : Z) : Z := Z.lxor x 0xffffffff.

Definition rotl32 (x n : Z) : Z :=
  wrap32 (Z.lor (Z.shiftl x n) (Z.shiftr x (32 - n))).

Definition rotr32 (x n : Z) : Z := rotl32 x (32 - n).

Definition nthZ (l : list Z) (i : Z) : Z := nth (Z.to_nat i) l 0.

(** The bytes of a word, least significant first. *)
Definition le_bytes (count : nat) (x : Z) : list Z :=
  map (fun i => Z.land (Z.shiftr x (8 * Z.of_nat i)) 255) (seq 0 count).

Definition be_bytes (count : nat) (x : Z) : list Z := rev (le_bytes count x).

Definition le_word (l : list Z) : Z :=
  fold_right (fun b acc => b + 256 * acc) 0 l.

Definition be_word (l : list Z) : Z := le_word (rev l).

(** The consecutive [size]-byte blocks of a message whose length is a
    multiple of [size]. *)
Definition blocks (size : nat) (l : list Z) : list (list Z) :=
  map (fun i => firstn size (skipn (size * i) l)) (seq 0 (List.length l / size)).

(** Merkle-Damgard padding to 64-byte blocks: a [0x80] byte, zeros, and
    the bit length in eight bytes. *)
Definition pad64 (length_bytes : Z -> list Z) (msg : list Z) : list Z :=
  let len := Z.of_nat (List.length msg) in
  msg ++ [128] ++ repeat 0 (Z.to_nat ((55 - len) mod 64)) ++ length_bytes (8 * len).

(** *** MD5 (RFC 1321) *)

Definition md5_s : list Z :=
  [ 7; 12; 17; 22; 7; 12; 17; 22; 7; 12; 17; 22; 7; 12; 17; 22;
    5; 9; 14; 20; 5; 9; 14; 20; 5; 9; 14; 20; 5; 9; 14; 20;
    4; 11; 16; 23; 4; 11; 16; 23; 4; 11; 16; 23; 4; 11; 16; 23;
    6; 10; 15; 21; 6; 10; 15; 21; 6; 10; 15; 21; 6; 10; 15; 21 ].

Definition md5_K : list Z :=
  [ 0xd76aa478; 0xe8c7b756; 0x242070db; 0xc1bdceee;
    0xf57c0faf; 0x4787c62a; 0xa8304613; 0xfd469501;
    0x698098d8; 0x8b44f7af; 0xffff5bb1; 0x895cd7be;
    0x6b901122; 0xfd987193; 0xa679438e; 0x49b40821;
    0xf61e2562; 0xc040b340; 0x265e5a51; 0xe9b6c7aa;
    0xd62f105d; 0x02441453; 0xd8a1e681; 0xe7d3fbc8;
    0x21e1cde6; 0xc33707d6; 0xf4d50d87; 0x455a14ed;
    0xa9e3e905; 0xfcefa3f8; 0x676f02d9; 0x8d2a4c8a;
    0xfffa3942; 0x8771f681; 0x6d9d6122; 0xfde5380c;
    0xa4beea44; 0x4bdecfa9; 0xf6bb4b60; 0xbebfbc70;
    0x289b7ec6; 0xeaa127fa; 0xd4ef3085; 0x04881d05;
    0xd9d4d039; 0xe6db99e5; 0x1fa27cf8; 0xc4ac5665;
    0xf4292244; 0x432aff97; 0xab9423a7; 0xfc93a039;
    0x655b59c3; 0x8f0ccc92; 0xffeff47d; 0x85845dd1;
    0x6fa87e4f; 0xfe2ce6e0; 0xa3014314; 0x4e0811a1;
    0xf7537e82; 0xbd3af235; 0x2ad7d2bb; 0xeb86d391 ].

Definition md5_step (M : list Z) (st : Z * Z * Z * Z) (i : Z) : Z * Z * Z * Z :=
  let '(a, b, c, d) := st in
  let '(f, g) :=
    if i <? 16 then (Z.lor (Z.land b c) (Z.land (not32 b) d), i)
    else if i <? 32 then (Z.lor (Z.land d b) (Z.land (not32 d) c), (5 * i + 1) mod 16)
    else if i <? 48 then (Z.lxor b (Z.lxor c d), (3 * i + 5) mod 16)
    else (Z.lxor c (Z.lor b (not32 d)), (7 * i) mod 16) in
  let x := add32 (add32 (add32 a f) (nthZ md5_K i)) (nthZ M g) in
  (d, add32 b (rotl32 x (nthZ md5_s i)), b, c).

Definition md5_block (st : Z * Z * Z * Z) (block : list Z) : Z * Z * Z * Z :=
  let M := map le_word (blocks 4 block) in
  let '(a, b, c, d) := st in
  let '(a', b', c', d') := fold_left (md5_step M) (map Z.of_nat (seq 0 64)) st in
  (add32 a a', add32 b b', add32 c c', add32 d d').

Definition md5 (msg : list Z) : list Z :=
  let '(a, b, c, d) :=
    fold_left md5_block (blocks 64 (pad64 (le_bytes 8) msg))
      (0x67452301, 0xefcdab89, 0x98badcfe, 0x10325476) in
  le_bytes 4 a ++ le_bytes 4 b ++ le_bytes 4 c ++ le_bytes 4 d.

(** *** SHA-256 (FIPS 180-4) *)

(** The largest [x] below [2 ^ bits] with [x ^ degree <= n]. *)
Definition integer_root (degree : Z) (bits : nat) (n : Z) : Z :=
  fold_left (fun x b => let y := x + 2 ^ Z.of_nat b in
                        if y ^ degree <=? n then y else x)
            (rev (seq 0 bits)) 0.

(** The first 32 bits of the fractional part of the [degree]-th root
    of [p]. *)
Definition root_fraction (degree p : Z) : Z :=
  wrap32 (integer_root degree 40 (p * 2 ^ (32 * degree))).

Definition is_prime (n : nat) : bool :=
  forallb (fun d => negb (Nat.eqb (n mod d) 0)) (seq 2 (n - 2)).

(** The first sixty-four primes, 2 to 311. *)
Definition primes64 : list nat := filter is_prime (seq 2 310).

(** The round constants: the cube roots of the first sixty-four
    primes; the initial hash value: the square roots of the first
    eight. *)
Definition sha256_K : list Z :=
  Eval vm_compute in map (fun p => root_fraction 3 (Z.of_nat p)) primes64.

Definition sha256_H0 : list Z :=
  Eval vm_compute in map (fun p => root_fraction 2 (Z.of_nat p)) (firstn 8 primes64).

(** The message schedule: sixteen words of the block, extended to
    sixty-four. *)
Definition sha256_extend (W : list Z) (i : nat) : list Z :=
  let w := fun k => nth (i - k) W 0 in
  let s0 := Z.lxor (rotr32 (w 15%nat) 7) (Z.lxor (rotr32 (w 15%nat) 18) (Z.shiftr (w 15%nat) 3)) in
  let s1 := Z.lxor (rotr32 (w 2%nat) 17) (Z.lxor (rotr32 (w 2%nat) 19) (Z.shiftr (w 2%nat) 10)) in
  W ++ [add32 (add32 (w 16%nat) s0) (add32 (w 7%nat) s1)].

Definition sha256_schedule (block : list Z) : list Z :=
  fold_left sha256_extend (seq 16 48) (map be_word (blocks 4 block)).

Definition sha256_step (W : list Z) (st : list Z) (i : Z) : list Z :=
  match st with
  | [a; b; c; d; e; f; g; h] =>
      let S1 := Z.lxor (rotr32 e 6) (Z.lxor (rotr32 e 11) (rotr32 e 25)) in
      let ch := Z.lxor (Z.land e f) (Z.land (not32 e) g) in
      let t1 := add32 (add32 (add32 h S1) (add32 ch (nthZ sha256_K i))) (nthZ W i) in
      let S0 := Z.lxor (rotr32 a 2) (Z.lxor (rotr32 a 13) (rotr32 a 22)) in
      let maj := Z.lxor (Z.land a b) (Z.lxor (Z.land a c) (Z.land b c)) in
      let t2 := add32 S0 maj in
      [add32 t1 t2; a; b; c; add32 d t1; e; f; g]
  | _ => st
  end.

Definition sha256_block (st : list Z) (block : list Z) : list Z :=
  let W := sha256_schedule block in
  map (fun p => add32 (fst p) (snd p))
      (combine st (fold_left (sha256_step W) (map Z.of_nat (seq 0 64)) st)).

Definition sha256 (msg : list Z) : list Z :=
  flat_map (be_bytes 4)
    (fold_left sha256_block (blocks 64 (pad64 (be_bytes 8) msg)) sha256_H0).

(** *** HMAC (RFC 2104) over SHA-256 *)

Definition hmac_key_block (key : list Z) : list Z :=
  let k := if (64 <? Z.of_nat (List.length key)) then sha256 key else key in
  k ++ repeat 0 (64 - List.length k).

Definition hmac_sha256 (key msg : list Z) : list Z :=
  let k := hmac_key_block key in
  sha256 (map (Z.lxor 0x5c) k ++ sha256 (map (Z.lxor 0x36) k ++ msg)).

End Crypto.

(** ** The [request] library, as the client uses it *)

Module Request.
Import JS.

(** The options object handed to [request]; a field the caller left out
    is [None]. *)
Record Options : Type := mkOptions {
  url : string;
  method : string;
  headers : option (list (string * value));
  form : option string;
  timeout : option Z;
  qs : option value;
  json : option value
}.

(** What [request] hands to its callback: an error [err] (with
    [err.code] and [err.message]), or a response with its
    [statusCode] and the body [data]. *)
Inductive Reply : Type :=
| Failure (code : value) (message : string)
| Response (statusCode : Z) (data : value).

End Request.

(** ** The client *)

Module Cryptopia.
Import JS Host Crypto.

(** The result of [JSON.parse]. *)
Inductive parsed : Type :=
| Parsed (v : value)
| SyntaxError (message : string).

(** The host a call runs in: the clock ([new Date().getTime()], in
    milliseconds), [JSON.parse], and the transport behind [request]. *)
Record host : Type := mkHost {
  getTime : Z;
  JSON_parse : string -> parsed;
  request : Request.Options -> Request.Reply
}.

(** What a call comes to: a promise that is fulfilled or rejected, or
    an exception thrown before any promise was returned. *)
Inductive outcome : Type :=
| Resolved (v : value)
| Rejected (e : JsError)
| Thrown (e : JsError).

(** [promise.then(f)], with [f] resolving, or throwing, what it returns. *)
Definition then_ (p : outcome) (f : value -> outcome) : outcome :=
  match p with
  | Resolved v =>
      match f v with
      | Thrown e => Rejected e
      | r => r
      end
  | r => r
  end.

(** *** Errors *)

Definition dquote : string := String (chr 34) "".

Definition newline : string := String (chr 10) "".

(** [%s] formatting, as [util.format] and [VError] do it for the
    formats the client uses: each [%s] takes the next argument. *)
Fixpoint sprintf (fmt : string) (args : list string) : string :=
  match fmt with
  | EmptyString => ""
  | String "%" (String "s" rest) =>
      match args with
      | a :: more => a ++ sprintf rest more
      | [] => "%s" ++ sprintf rest []
      end
  | String c rest => String c (sprintf rest args)
  end.

(** [new VError(cause, fmt, args...)]: the message is the formatted
    text, followed by the cause's message when there is a cause.
    [null] and [undefined] arguments print as their names. *)
Definition VError (cause : option string) (fmt : string) (args : list value) : JsError :=
  let text := sprintf fmt (map ToString args) in
  {| name := VStr "VError";
     message := match cause with
                | Some m => text ++ ": " ++ m
                | None => text
                end;
     cause := cause |}.

(** [error.name = n]. *)
Definition set_name (e : JsError) (n : value) : JsError :=
  {| name := n; message := message e; cause := cause e |}.

(** [new Error(m)]. *)
Definition Error (m : value) : JsError :=
  {| name := VStr "Error";
     message := match m with VUndefined => "" | _ => ToString m end;
     cause := None |}.

(** The [TypeError] of [hash.update(undefined)]. *)
Definition TypeError (m : string) : JsError :=
  {| name := VStr "TypeError"; message := m; cause := None |}.

(** *** underscore *)

(** [_.isObject]: [type === 'function' || type === 'object' && !!obj]. *)
Definition isObject (obj : value) : bool :=
  let type := typeof obj in
  (type =? "function")%string || ((type =? "object")%string && ToBoolean obj).

(** [_.has]: [obj != null && hasOwnProperty.call(obj, key)]. *)
Definition has (obj : value) (key : string) : bool :=
  match obj with
  | VUndefined | VNull => false
  | _ => existsb (String.eqb key) (own_keys obj)
  end.

(** *** The error-code table *)

Definition ERROR_CODES : list (string * value) :=
  [
    ("10000", VStr "Required parameter can not be null");
    ("10001", VStr "Requests are too frequent");
    ("10002", VStr "System Error");
    ("10003", VStr "Restricted list request, please try again later");
    ("10004", VStr "IP restriction");
    ("10005", VStr "Key does not exist");
    ("10006", VStr "User does not exist");
    ("10007", VStr "Signatures do not match");
    ("10008", VStr "Illegal parameter");
    ("10009", VStr "Order does not exist");
    ("10010", VStr "Insufficient balance");
    ("10011", VStr "Order is less than minimum trade amount");
    ("10012", VStr "Unsupported symbol (not btc_usd or ltc_usd)");
    ("10013", VStr "This interface only accepts https requests");
    ("10014", VStr "Order price must be between 0 and 1,000,000");
    ("10015", VStr "Order price differs from current market price too much");
    ("10016", VStr "Insufficient coins balance");
    ("10017", VStr "API authorization error");
    ("10026", VStr "Loan (including reserved loan) and margin cannot be withdrawn");
    ("10027", VStr "Cannot withdraw within 24 hrs of authentication information modification");
    ("10028", VStr "Withdrawal amount exceeds daily limit");
    ("10029", VStr "Account has unpaid loan, please cancel/pay off the loan before withdraw");
    ("10031", VStr "Deposits can only be withdrawn after 6 confirmations");
    ("10032", VStr "Please enabled phone/google authenticator");
    ("10033", VStr "Fee higher than maximum network transaction fee");
    ("10034", VStr "Fee lower than minimum network transaction fee");
    ("10035", VStr "Insufficient BTC/LTC");
    ("10036", VStr "Withdrawal amount too low");
    ("10037", VStr "Trade password not set");
    ("10040", VStr "Withdrawal cancellation fails");
    ("10041", VStr "Withdrawal address not approved");
    ("10042", VStr "Admin password error");
    ("10100", VStr "User account frozen");
    ("10216", VStr "Non-available API");
    ("503", VStr "Too many requests (Http)")
  ].

Definition mapErrorMessage (error_code : value) : value :=
  if negb (ToBoolean (lookup ERROR_CODES (ToString error_code)))
  then VStr ("Unknown Cryptopia error code: " ++ ToString error_code)
  else lookup ERROR_CODES (ToString error_code).

(** *** [executeRequest] *)

(** The first half of the callback: the [if]/[else if] chain over the
    transport's reply, giving the [error] set so far (if any) and
    [returnObject].  A transport failure leaves [data] undefined.
    The source puts the text of an unparsable body into [VError]'s
    format, where a percent sign starts a conversion ([%%] prints one
    sign, [%s] finds no argument and throws inside the callback, so
    that the promise stays unsettled).  [sprintf] copies such a format
    as it is: this branch follows the source for a body without a
    percent sign only, and the theorem about its rejection assumes
    such a body. *)
Definition interpret (options : Request.Options) (requestDesc : string) (h : host)
  : option JsError * value :=
  let functionName := "Cryptopia.executeRequest()" in
  match request h options with
  | Request.Failure code msg =>
      (Some (set_name (VError (Some msg) "%s failed %s"
                         [VStr functionName; VStr requestDesc]) code),
       VUndefined)
  | Request.Response statusCode data =>
      if (statusCode <? 200) || (statusCode >=? 300) then
        (Some (set_name (VError None "%s HTTP status code %s returned from %s"
                           [VStr functionName; VNum statusCode; VStr requestDesc])
                 (VNum statusCode)),
         data)
      else if truthy_string (Request.form options) then
        match JSON_parse h (ToString data) with
        | Parsed obj => (None, obj)
        | SyntaxError m =>
            (Some (VError (Some m)
                     ("Could not parse response from server: " ++ ToString data) []),
             data)
        end
      else if match Request.json options with
              | Some j => ToBoolean j
              | None => false
              end && negb (isObject data) then
        (Some (VError None ("%s could not parse response from %s" ++ newline ++ "Response: %s")
                 [VStr functionName; VStr requestDesc; data]),
         data)
      else (None, data)
  end.

(** The second half of the callback: the [error_code] test on
    [returnObject], then [reject] or [resolve]. *)
Definition conclude (requestDesc : string) (error : option JsError) (returnObject : value)
  : outcome :=
  let functionName := "Cryptopia.executeRequest()" in
  let error :=
    match (if has returnObject "error_code"
           then Get returnObject "error_code" else None) with
    | Some error_code =>
        let errorMessage := mapErrorMessage error_code in
        Some (set_name
                (VError None
                   ("%s %s returned error code %s, message: " ++ dquote ++ "%s" ++ dquote)
                   [VStr functionName; VStr requestDesc; error_code; errorMessage])
                error_code)
    | None => error
    end in
  match error with
  | Some e => Rejected e
  | None => Resolved returnObject
  end.

(** The whole call: one invocation of the transport, whose reply the
    callback settles the promise from.  The second component lists the
    options the transport was invoked with. *)
Definition executeRequest (options : Request.Options) (requestDesc : string) (h : host)
  : outcome * list Request.Options :=
  let '(error, returnObject) := interpret options requestDesc h in
  (conclude requestDesc error returnObject, [options]).

(** *** The client object *)

Record client : Type := mkClient {
  key : option string;
  secret : option string;
  hostname : string;
  server : string;
  publicApiPath : string;
  privateApiPath : string;
  timeout : Z
}.

(** [new Cryptopia(key, secret, hostname, timeout)]; an argument left
    out is [None]. *)
Definition new_Cryptopia (key secret hostname : option string) (timeout : option Z)
  : client :=
  let hostname := if truthy_string hostname then template hostname
                  else "www.cryptopia.co.nz" in
  {| key := key;
     secret := secret;
     hostname := hostname;
     server := "https://" ++ hostname;
     publicApiPath := "api";
     privateApiPath := "api";
     timeout := match timeout with
                | Some t => if t =? 0 then 20000 else t
                | None => 20000
                end |}.

Definition privateRequest (this : client) (method : string) (params : value) (h : host)
  : outcome * list Request.Options :=
  let functionName := "Cryptopia.privateRequest()" in
  if negb (truthy_string (key this)) || negb (truthy_string (secret this)) then
    (Rejected (VError None "%s must provide key and secret to make this API request."
                 [VStr functionName]),
     [])
  else if negb (isObject params) then
    (Rejected (VError None
                 "%s second parameter %s must be an object. If no params then pass an empty object {}"
                 [VStr functionName; params]),
     [])
  else
    match JSON_stringify params with
    | None => (Thrown (TypeError "Data must be a string or a buffer"), [])
    | Some body =>
        let md5 := base64_encode (Crypto.md5 (bytes_of_string body)) in
        let nonce := getTime h / 1000 in
        let url := server this ++ "/" ++ privateApiPath this ++ "/" ++ method in
        let signature :=
          template (key this) ++ "POST" ++ toLowerCase (encodeURIComponent url)
          ++ Number_toString nonce ++ md5 in
        let hmacSignature :=
          base64_encode (hmac_sha256 (base64_decode (template (secret this)))
                           (bytes_of_string signature)) in
        let headers :=
          [ ("Authorization",
             VStr ("amx " ++ template (key this) ++ ":" ++ hmacSignature ++ ":"
                   ++ Number_toString nonce));
            ("Content-Type", VStr "application/json; charset=utf-8");
            ("Content-Length", VNum (Buffer_byteLength body));
            ("User-Agent", VStr "nodejs-7.5-api-client") ] in
        let options :=
          {| Request.url := url;
             Request.method := "POST";
             Request.headers := Some headers;
             Request.form := Some body;
             Request.timeout := None;
             Request.qs := None;
             Request.json := None |} in
        let requestDesc :=
          sprintf "%s request to url %s with method %s and params %s"
            [Request.method options; url; method; body] in
        executeRequest options requestDesc h
    end.

Definition publicRequest (this : client) (method : string) (params : value) (h : host)
  : outcome * list Request.Options :=
  let functionName := "Cryptopia.publicRequest()" in
  if negb (isObject params) then
    (Rejected (VError None
                 "%s second parameter %s must be an object. If no params then pass an empty object {}"
                 [VStr functionName; params]),
     [])
  else
    let options :=
      {| Request.url := server this ++ "/" ++ publicApiPath this ++ "/" ++ method;
         Request.method := "GET";
         Request.headers := None;
         Request.form := None;
         Request.timeout := Some (timeout this);
         Request.qs := Some params;
         Request.json := Some (VObj []) |} in
    let requestDesc :=
      sprintf "%s request to url %s with parameters %s"
        [Request.method options; Request.url options; template (JSON_stringify params)] in
    let '(result, sent) := executeRequest options requestDesc h in
    (then_ result (fun resp =>
       match Get resp "Error", Get resp "Data" with
       | Some e, Some d => if ToBoolean e then Thrown (Error e) else Resolved d
       | _, _ => Thrown (TypeError "Cannot read property 'Error' of undefined")
       end),
     sent).

(** Two of the endpoint methods. *)
Definition getCurrencies (this : client) : host -> outcome * list Request.Options :=
  publicRequest this "GetCurrencies/" (VObj []).

Definition getBalance (this : client) : host -> outcome * list Request.Options :=
  privateRequest this "GetBalance" (VObj []).

(** *** The other endpoint methods

    An argument the caller leaves out is [undefined]. *)


(** [params.key = v] on an object literal: the value of an own property
    is replaced in place, a new property is added at the end. *)
Fixpoint put (fields : list (string * value)) (key : string) (v : value)
  : list (string * value) :=
  match fields with
  | [] => [(key, v)]
  | (k, x) :: rest =>
      if (k =? key)%string then (k, v) :: rest else (k, x) :: put rest key v
  end.




Definition getKline (this : client) (symbol type size since : value)
  : host -> outcome * list Request.Options :=
  let params := [("symbol", symbol)] in
  let params := if ToBoolean type then put params "type" type else params in
  let params := if ToBoolean size then put params "size" size else params in
  let params := if ToBoolean since then put params "since" since else params in
  publicRequest this "kline" (VObj params).

Definition getLendDepth (this : client) (symbol : value)
  : host -> outcome * list Request.Options :=
  publicRequest this "kline" (VObj [("symbol", symbol)]).

Definition addTrade (this : client) (symbol type amount price : value)
  : host -> outcome * list Request.Options :=
  let params := [("symbol", symbol); ("type", type)] in
  let params := if ToBoolean amount then put params "amount" amount else params in
  let params := if ToBoolean price then put params "price" price else params in
  privateRequest this "trade" (VObj params).


Definition cancelOrder (this : client) (symbol order_id : value)
  : host -> outcome * list Request.Options :=
  privateRequest this "cancel_order"
    (VObj [("symbol", symbol); ("order_id", order_id)]).








End Cryptopia.

(** ** The signer of the specification

    The seven steps of the specification's [sign], written from its
    words, to compare [privateRequest] with. *)

Module Spec.
Import JS Host Crypto.

(** Step 2: the MD5 hash of the serialized params, base64-encoded. *)
Definition content_digest (json : string) : string :=
  base64_encode (md5 (bytes_of_string json)).

(** Step 3: the whole seconds since the epoch, for a clock in
    milliseconds. *)
Definition nonce (now_ms : Z) : Z := now_ms / 1000.

(** Step 4: [{server}/{apiPath}/{method}]. *)
Definition target_url (server apiPath method : string) : string :=
  server ++ "/" ++ apiPath ++ "/" ++ method.

(** Step 5: [{key}POST{percent-encoded-lowercased URL}{nonce}{digest}]. *)
Definition signature_source (key url : string) (nonce : Z) (digest : string) : string :=
  key ++ "POST" ++ toLowerCase (encodeURIComponent url)
  ++ Number_toString nonce ++ digest.

(** Step 6: HMAC-SHA256 over the source, keyed by the base64-decoded
    secret, base64-encoded. *)
Definition signature (secret source : string) : string :=
  base64_encode (hmac_sha256 (base64_decode secret) (bytes_of_string source)).

(** Step 7: [amx {key}:{signature}:{nonce}]. *)
Definition header_value (key signature : string) (nonce : Z) : string :=
  "amx " ++ key ++ ":" ++ signature ++ ":" ++ Number_toString nonce.

(** Steps 2 to 7 in order, from the serialized params of step 1. *)
Definition authorization
  (key secret server apiPath method json : string) (now_ms : Z) : string :=
  let digest := content_digest json in
  let n := nonce now_ms in
  let url := target_url server apiPath method in
  let source := signature_source key url n digest in
  header_value key (signature secret source) n.

End Spec.

(** ** The error kinds of the specification

    The client builds every error as a [VError] (or a plain [Error]);
    the specification names them by the place that builds them. *)

Module Kind.
Import JS Host Cryptopia.

Definition invalid_parameter_format : string :=
  "%s second parameter %s must be an object. If no params then pass an empty object {}".

Definition MissingCredentialsError : JsError :=
  VError None "%s must provide key and secret to make this API request."
    [VStr "Cryptopia.privateRequest()"].

Definition InvalidParameterError (functionName : string) (params : value) : JsError :=
  VError None invalid_parameter_format [VStr functionName; params].

Definition TransportError (code : value) (msg requestDesc : string) : JsError :=
  set_name (VError (Some msg) "%s failed %s"
              [VStr "Cryptopia.executeRequest()"; VStr requestDesc]) code.

Definition HttpStatusError (statusCode : Z) (requestDesc : string) : JsError :=
  set_name (VError None "%s HTTP status code %s returned from %s"
              [VStr "Cryptopia.executeRequest()"; VNum statusCode; VStr requestDesc])
    (VNum statusCode).

Definition RemoteApiError (requestDesc : string) (error_code : value) : JsError :=
  set_name (VError None
              ("%s %s returned error code %s, message: " ++ dquote ++ "%s" ++ dquote)
              [VStr "Cryptopia.executeRequest()"; VStr requestDesc; error_code;
               mapErrorMessage error_code])
    error_code.


End Kind.

(** ** Observing a call *)

Module Observe.
Import JS Host Cryptopia.

(** The header [name] of a request. *)
Definition header (o : Request.Options) (name : string) : option value :=
  match Request.headers o with
  | Some hs => assoc name hs
  | None => None
  end.


(** The [Authorization] header of the one request a call sent. *)
Definition authorization_of (call : outcome * list Request.Options) : option value :=
  match snd call with
  | [o] => header o "Authorization"
  | _ => None
  end.

(** The descriptor a private call sends, with the header written by
    the specification's signer. *)
Definition signed_descriptor
  (k s : string) (this : client) (method json : string) (now : Z) : Request.Options :=
  {| Request.url := Spec.target_url (server this) (privateApiPath this) method;
     Request.method := "POST";
     Request.headers :=
       Some [ ("Authorization",
               VStr (Spec.authorization k s (server this) (privateApiPath this)
                       method json now));
              ("Content-Type", VStr "application/json; charset=utf-8");
              ("Content-Length", VNum (Buffer_byteLength json));
              ("User-Agent", VStr "nodejs-7.5-api-client") ];
     Request.form := Some json;
     Request.timeout := None;
     Request.qs := None;
     Request.json := None |}.

(** The descriptor a public call sends, its description of the call,
    and what its [then] handler makes of the body the executor
    resolves with. *)
Definition public_descriptor (this : client) (method : string) (params : value)
  : Request.Options :=
  {| Request.url := server this ++ "/" ++ publicApiPath this ++ "/" ++ method;
     Request.method := "GET";
     Request.headers := None;
     Request.form := None;
     Request.timeout := Some (timeout this);
     Request.qs := Some params;
     Request.json := Some (VObj []) |}.

Definition public_description (this : client) (method : string) (params : value)
  : string :=
  sprintf "%s request to url %s with parameters %s"
    ["GET"; server this ++ "/" ++ publicApiPath this ++ "/" ++ method;
     template (JSON_stringify params)].

Definition unwrap (resp : value) : outcome :=
  match Get resp "Error", Get resp "Data" with
  | Some e, Some d => if ToBoolean e then Thrown (Error e) else Resolved d
  | _, _ => Thrown (TypeError "Cannot read property 'Error' of undefined")
  end.

(** The description a private call gives of itself. *)
Definition private_description (this : client) (method json : string) : string :=
  sprintf "%s request to url %s with method %s and params %s"
    ["POST"; server this ++ "/" ++ privateApiPath this ++ "/" ++ method; method; json].

(** Whether a client has both credentials. *)
Definition has_credentials (this : client) : bool :=
  truthy_string (key this) && truthy_string (secret this).



(** A byte. *)
Definition byte_range (b : Z) : Prop := 0 <= b < 256.

(** How often a character occurs in a string. *)
Fixpoint occurrences (c : ascii) (s : string) : nat :=
  match s with
  | EmptyString => 0
  | String c' rest => ((if Ascii.eqb c c' then 1 else 0) + occurrences c rest)%nat
  end.

(** A host for examples: a fixed clock, a transport that gives the
    same reply to every request, and a [JSON.parse] that knows the
    texts of [texts] only. *)
Definition stub (now : Z) (texts : list (string * value)) (reply : Request.Reply) : host :=
  {| getTime := now;
     JSON_parse := fun s => match assoc s texts with
                            | Some v => Parsed v
                            | None => SyntaxError "Unexpected token"
                            end;
     request := fun _ => reply |}.

End Observe.

(** ** The example script ([test/test.js]) *)

Module Script.
Import JS Cryptopia.





End Script.

Import JS Host Crypto Cryptopia Kind Observe.

(** * Theorems *)

(** ** The host's functions on known inputs *)

Example md5_abc :
  hex (md5 (bytes_of_string "abc")) = "900150983cd24fb0d6963f7d28e17f72".
Proof. vm_compute. reflexivity. Qed.

Example md5_two_blocks :
  hex (md5 (bytes_of_string
    "12345678901234567890123456789012345678901234567890123456789012345678901234567890"))
  = "57edf4a22be3c955ac49da2e2107b67a".
Proof. vm_compute. reflexivity. Qed.

Example sha256_constants :
  List.length sha256_K = 64%nat
  /\ nthZ sha256_K 0 = 0x428a2f98 /\ nthZ sha256_K 63 = 0xc67178f2
  /\ nthZ sha256_H0 0 = 0x6a09e667 /\ nthZ sha256_H0 7 = 0x5be0cd19.
Proof. repeat split; reflexivity. Qed.

Example sha256_abc :
  hex (sha256 (bytes_of_string "abc"))
  = "ba7816bf8f01cfea414140de5dae2223b00361a396177a9cb410ff61f20015ad".
Proof. vm_compute. reflexivity. Qed.

(** RFC 4231, test cases 2 and 6. *)
Example hmac_sha256_rfc4231_2 :
  hex (hmac_sha256 (bytes_of_string "Jefe") (bytes_of_string "what do ya want for nothing?"))
  = "5bdcc146bf60754e6a042426089575c75a003f089d2739839dec58b964ec3843".
Proof. vm_compute. reflexivity. Qed.

Example hmac_sha256_rfc4231_6 :
  hex (hmac_sha256 (repeat 0xaa 131)
         (bytes_of_string "Test Using Larger Than Block-Size Key - Hash Key First"))
  = "60e431591ee0b67f0d8a26aacbf5b77f8e0bc6213728c5140546040f0ee37f54".
Proof. vm_compute. reflexivity. Qed.

Example base64_round_trip :
  base64_encode (bytes_of_string "hello world!!") = "aGVsbG8gd29ybGQhIQ=="
  /\ string_of_bytes (base64_decode "aGVsbG8gd29ybGQhIQ==") = "hello world!!".
Proof. split; vm_compute; reflexivity. Qed.

Example encode_url_lowercased :
  toLowerCase (encodeURIComponent "https://www.cryptopia.co.nz/api/GetBalance")
  = "https%3a%2f%2fwww.cryptopia.co.nz%2fapi%2fgetbalance".
Proof. reflexivity. Qed.

Example stringify_object :
  JSON_stringify (VObj [("symbol", VStr "btc_usd"); ("type", VUndefined);
                        ("amount", VNum (-12)); ("orders", VArr [VNull; VUndefined; VBool true])])
  = Some ("{" ++ dquote ++ "symbol" ++ dquote ++ ":" ++ dquote ++ "btc_usd" ++ dquote
          ++ "," ++ dquote ++ "amount" ++ dquote ++ ":-12,"
          ++ dquote ++ "orders" ++ dquote ++ ":[null,null,true]}").
Proof. reflexivity. Qed.

(** A signed call end to end: [new Cryptopia('k', 'c2VjcmV0').getBalance()]
    at clock 1500000000123. *)
Example getBalance_request :
  snd (getBalance (new_Cryptopia (Some "k") (Some "c2VjcmV0") None None)
         (stub 1500000000123 [] (Request.Response 200 (VStr "{}"))))
  = [ {| Request.url := "https://www.cryptopia.co.nz/api/GetBalance";
         Request.method := "POST";
         Request.headers :=
           Some [ ("Authorization",
                   VStr "amx k:cbhINfghpJpqPAX5D+AMPrDVFYg61oEkWjwkyG4z/GY=:1500000000");
                  ("Content-Type", VStr "application/json; charset=utf-8");
                  ("Content-Length", VNum 2);
                  ("User-Agent", VStr "nodejs-7.5-api-client") ];
         Request.form := Some "{}";
         Request.timeout := None;
         Request.qs := None;
         Request.json := None |} ].
Proof. vm_compute. reflexivity. Qed.

(** ** Auxiliary facts *)

Arguments md5 : simpl never.
Arguments sha256 : simpl never.
Arguments hmac_sha256 : simpl never.
Arguments base64_encode : simpl never.
Arguments base64_decode : simpl never.
Arguments encodeURIComponent : simpl never.
Arguments toLowerCase : simpl never.
Arguments Number_toString : simpl never.
Arguments bytes_of_string : simpl never.
Arguments mapErrorMessage : simpl never.

(** [_.isObject] by cases: arrays, objects and functions, nothing else. *)
Lemma isObject_cases (v : value) :
  isObject v = match v with
               | VArr _ | VObj _ | VFun _ => true
               | _ => false
               end.
Proof. destruct v; reflexivity. Qed.

Lemma isObject_false_primitive (v : value) :
  isObject v = false <->
  v = VUndefined \/ v = VNull \/ (exists b, v = VBool b)
  \/ (exists n, v = VNum n) \/ (exists s, v = VStr s).
Proof.
  rewrite isObject_cases. split.
  - destruct v; intros H; try discriminate H; eauto 8.
  - intros [-> | [-> | [[b ->] | [[n ->] | [s ->]]]]]; reflexivity.
Qed.

(** A truthy credential is a non-empty string. *)
Lemma truthy_string_some (s : option string) :
  truthy_string s = true <-> exists t, s = Some t /\ t <> "".
Proof.
  destruct s as [t|]; simpl.
  - rewrite negb_true_iff, String.eqb_neq. split.
    + intros H. exists t. auto.
    + intros [t' [E H]]. injection E as ->. exact H.
  - split; [discriminate | intros [t [E _]]; discriminate E].
Qed.

(** The executor invokes the transport exactly once, with its options. *)
Lemma executeRequest_sent options requestDesc h :
  snd (executeRequest options requestDesc h) = [options].
Proof.
  unfold executeRequest. destruct (interpret options requestDesc h). reflexivity.
Qed.

Lemma executeRequest_settled options requestDesc h :
  fst (executeRequest options requestDesc h)
  = conclude requestDesc (fst (interpret options requestDesc h))
      (snd (interpret options requestDesc h)).
Proof.
  unfold executeRequest. destruct (interpret options requestDesc h). reflexivity.
Qed.

(** A number's string form starts with a digit or a minus sign. *)
Lemma Number_toString_not_word (n : Z) (rest : string) :
  Number_toString n <> String "e" rest.
Proof.
  unfold Number_toString.
  destruct (Z.to_int n) as [d|d]; [destruct d|]; discriminate.
Qed.

Lemma index_names_not_word (n : nat) (rest : string) :
  existsb (String.eqb (String "e" rest)) (index_names n) = false.
Proof.
  unfold index_names. induction (seq 0 n) as [|i l IH]; cbn [map existsb]; [reflexivity|].
  rewrite IH, orb_false_r. apply String.eqb_neq.
  intros E. exact (Number_toString_not_word _ _ (eq_sym E)).
Qed.

(** Only a plain object can have an own ["error_code"]. *)
Lemma has_error_code_object (v : value) :
  has v "error_code" = true ->
  exists fields, v = VObj fields /\ In "error_code" (map fst fields).
Proof.
  destruct v; try (simpl; discriminate); unfold has; cbn [own_keys].
  - rewrite existsb_app, index_names_not_word. discriminate.
  - rewrite existsb_app, index_names_not_word. discriminate.
  - intros H. exists fields. split; [reflexivity|].
    apply existsb_exists in H as [x [Hin Hx]].
    apply String.eqb_eq in Hx. subst x. exact Hin.
Qed.

Lemma assoc_in {A : Type} (k : string) (l : list (string * A)) :
  In k (map fst l) -> exists x, assoc k l = Some x.
Proof.
  induction l as [|[k' x] l IH]; simpl; [tauto|].
  intros [-> | H].
  - rewrite String.eqb_refl. eauto.
  - destruct (k' =? k)%string; eauto.
Qed.

(** Names the executor's run inside a request builder: [result] is
    what it settles with, and what it sent is its options. *)
Ltac executor_run h :=
  match goal with
  | |- context [executeRequest ?o ?d h] =>
      let E := fresh "Hsent" in
      pose proof (executeRequest_sent o d h) as E;
      destruct (executeRequest o d h) as [result sent];
      cbn [snd] in E; subst sent
  end.

(** With an own ["error_code"] in [returnObject] the promise is rejected
    with the error built from that code, whatever [error] held before. *)
Lemma conclude_error_code requestDesc returnObject :
  has returnObject "error_code" = true ->
  exists error_code,
    Get returnObject "error_code" = Some error_code /\
    forall error,
      conclude requestDesc error returnObject
      = Rejected (RemoteApiError requestDesc error_code).
Proof.
  intros H. destruct (has_error_code_object _ H) as [fields [-> Hin]].
  destruct (assoc_in _ _ Hin) as [c Hc].
  exists c. split.
  - simpl. unfold lookup. rewrite Hc. reflexivity.
  - intros error. unfold conclude. rewrite H.
    cbn [Get]. unfold lookup. rewrite Hc. reflexivity.
Qed.

Lemma conclude_no_error_code requestDesc error returnObject :
  has returnObject "error_code" = false ->
  conclude requestDesc error returnObject
  = match error with
    | Some e => Rejected e
    | None => Resolved returnObject
    end.
Proof. intros H. unfold conclude. rewrite H. reflexivity. Qed.

(** ** Preconditions of a call *)

(** C2.  A private call of a client whose key or secret is missing
    (absent, or the empty string: the values [!x] holds for) is rejected
    with MissingCredentialsError and the transport is never invoked.
    This holds whatever the params are, a non-object or an
    unserializable one included: the check comes before the params
    validation and before any signing. *)
Theorem missing_credentials_rejected_before_io
  (this : client) (method : string) (params : value) (h : host) :
  truthy_string (key this) = false \/ truthy_string (secret this) = false ->
  privateRequest this method params h = (Rejected MissingCredentialsError, []).
Proof.
  intros [H | H]; unfold privateRequest; rewrite H.
  - reflexivity.
  - rewrite orb_true_r. reflexivity.
Qed.

Lemma missing_credentials_witness :
  (truthy_string (key (new_Cryptopia None (Some "c2VjcmV0") None None)) = false
   \/ truthy_string (secret (new_Cryptopia None (Some "c2VjcmV0") None None)) = false)
  /\ privateRequest (new_Cryptopia None (Some "c2VjcmV0") None None) "GetBalance"
       (VStr "not an object") (stub 0 [] (Request.Response 200 VNull))
     = (Rejected MissingCredentialsError, []).
Proof.
  split.
  - left. reflexivity.
  - apply missing_credentials_rejected_before_io. left. reflexivity.
Defined.

(** C3, as the code has it.  A params argument that [_.isObject]
    refuses ([undefined], [null], a boolean, a number or a string) is
    rejected with InvalidParameterError before any request is signed
    or sent: by every public call, and by every private call of a
    client that has both credentials.  A private call without them is
    rejected with MissingCredentialsError first. *)
Theorem non_object_params_rejected
  (this : client) (method : string) (params : value) (h : host) :
  isObject params = false ->
  publicRequest this method params h
  = (Rejected (InvalidParameterError "Cryptopia.publicRequest()" params), [])
  /\ privateRequest this method params h
     = (Rejected (if truthy_string (key this) && truthy_string (secret this)
                  then InvalidParameterError "Cryptopia.privateRequest()" params
                  else MissingCredentialsError),
        []).
Proof.
  intros H. split.
  - unfold publicRequest. rewrite H. reflexivity.
  - unfold privateRequest. rewrite H.
    destruct (truthy_string (key this)), (truthy_string (secret this)); reflexivity.
Qed.

Lemma non_object_params_witness :
  isObject VNull = false
  /\ publicRequest (new_Cryptopia None None None None) "GetCurrencies/" VNull
       (stub 0 [] (Request.Response 200 VNull))
     = (Rejected (InvalidParameterError "Cryptopia.publicRequest()" VNull), []).
Proof.
  split.
  - reflexivity.
  - apply (non_object_params_rejected (new_Cryptopia None None None None)
             "GetCurrencies/" VNull (stub 0 [] (Request.Response 200 VNull))).
    reflexivity.
Defined.

(** C3 as stated fails in two ways.  A function and an array are no
    key-value objects, yet a public call given one goes to the
    transport and resolves; and a private call without credentials
    given a string is rejected with MissingCredentialsError, not
    InvalidParameterError. *)
Lemma non_object_params_counterexample :
  publicRequest (new_Cryptopia None None None None) "GetCurrencies/"
    (VFun "function () {}")
    (stub 0 [] (Request.Response 200 (VObj [("Error", VNull); ("Data", VArr [])])))
  = (Resolved (VArr []),
     [ {| Request.url := "https://www.cryptopia.co.nz/api/GetCurrencies/";
          Request.method := "GET";
          Request.headers := None;
          Request.form := None;
          Request.timeout := Some 20000;
          Request.qs := Some (VFun "function () {}");
          Request.json := Some (VObj []) |} ])
  /\ fst (publicRequest (new_Cryptopia None None None None) "GetCurrencies/"
            (VArr [VNum 1; VNum 2])
            (stub 0 [] (Request.Response 200 (VObj [("Error", VNull); ("Data", VArr [])]))))
     = Resolved (VArr [])
  /\ fst (privateRequest (new_Cryptopia None None None None) "GetBalance"
            (VStr "symbol=btc")
            (stub 0 [] (Request.Response 200 (VStr "{}"))))
     = Rejected MissingCredentialsError
  /\ MissingCredentialsError
     <> InvalidParameterError "Cryptopia.privateRequest()" (VStr "symbol=btc").
Proof.
  repeat split; try (vm_compute; reflexivity).
  vm_compute. discriminate.
Qed.

(** ** The request descriptor *)

(** C4, at the code.  The descriptor of a public call carries the
    client's timeout, 20000 when none (or zero) was given to the
    constructor; the descriptor of a private call carries no timeout at
    all, for any client, method and params. *)
Theorem private_request_carries_no_timeout
  (this : client) (method : string) (params : value) (h : host) :
  Forall (fun o => Request.timeout o = None) (snd (privateRequest this method params h))
  /\ Forall (fun o => Request.timeout o = Some (timeout this))
       (snd (publicRequest this method params h))
  /\ timeout (new_Cryptopia (key this) (secret this) None None) = 20000
  /\ (exists o,
        snd (getBalance (new_Cryptopia (Some "k") (Some "c2VjcmV0") None (Some 5000))
               (stub 1500000000123 [] (Request.Response 200 (VStr "{}"))))
        = [o]
        /\ Request.timeout o = None).
Proof.
  repeat split.
  - unfold privateRequest.
    destruct (negb (truthy_string (key this)) || negb (truthy_string (secret this)));
      [constructor|].
    destruct (negb (isObject params)); [constructor|].
    destruct (JSON_stringify params); [|constructor].
    cbv zeta. rewrite executeRequest_sent. constructor; [reflexivity | constructor].
  - unfold publicRequest.
    destruct (negb (isObject params)); [constructor|].
    cbv zeta. executor_run h. constructor; [reflexivity | constructor].
  - eexists. split; [vm_compute; reflexivity | reflexivity].
Qed.

(** ** Signing *)

(** A serializable params value: an array or an object always is. *)
Lemma object_params_serialize (params : value) :
  isObject params = true -> typeof params = "object" ->
  exists json, JSON_stringify params = Some json.
Proof.
  destruct params; try discriminate; intros _ _; simpl; eauto.
Qed.

(** A private call that passes both checks hands the signed descriptor
    to the executor. *)
Lemma privateRequest_signed this method params h k s json :
  key this = Some k -> k <> "" -> secret this = Some s -> s <> "" ->
  isObject params = true -> JSON_stringify params = Some json ->
  exists requestDesc,
    privateRequest this method params h
    = executeRequest (signed_descriptor k s this method json (getTime h)) requestDesc h.
Proof.
  intros Hk Hk' Hs Hs' Hobj Hjson.
  unfold privateRequest.
  rewrite Hk, Hs, Hobj, Hjson. cbn [truthy_string template negb orb].
  apply String.eqb_neq in Hk', Hs'. rewrite Hk', Hs'. cbn [negb orb].
  eexists. reflexivity.
Qed.


(** C1.  A private call of a client with key [k] and secret [s], both
    non-empty, and params that are an object (or array) sends exactly
    one request, whose [Authorization] header is the one the
    specification's algorithm builds from the serialized params and the
    clock: digest, nonce, signature source, signature and header value
    as in [Spec.authorization]. *)
Theorem authorization_header_follows_spec
  (this : client) (method : string) (params : value) (h : host) (k s : string) :
  key this = Some k -> k <> "" -> secret this = Some s -> s <> "" ->
  isObject params = true -> typeof params = "object" ->
  exists json o,
    JSON_stringify params = Some json
    /\ snd (privateRequest this method params h) = [o]
    /\ header o "Authorization"
       = Some (VStr (Spec.header_value k
                       (Spec.signature s
                          (Spec.signature_source k
                             (Spec.target_url (server this) (privateApiPath this) method)
                             (Spec.nonce (getTime h))
                             (Spec.content_digest json)))
                       (Spec.nonce (getTime h)))).
Proof.
  intros Hk Hk' Hs Hs' Hobj Htype.
  destruct (object_params_serialize params Hobj Htype) as [json Hjson].
  destruct (privateRequest_signed this method params h k s json
              Hk Hk' Hs Hs' Hobj Hjson) as [requestDesc E].
  exists json, (signed_descriptor k s this method json (getTime h)).
  split; [exact Hjson|]. split.
  - rewrite E. apply executeRequest_sent.
  - reflexivity.
Qed.

Lemma authorization_header_witness :
  exists json o,
    JSON_stringify (VObj [("symbol", VStr "btc_usd")]) = Some json
    /\ snd (privateRequest (new_Cryptopia (Some "k") (Some "c2VjcmV0") None None)
              "GetBalance" (VObj [("symbol", VStr "btc_usd")])
              (stub 1500000000123 [] (Request.Response 200 (VStr "{}"))))
       = [o]
    /\ header o "Authorization"
       = Some (VStr (Spec.header_value "k"
                       (Spec.signature "c2VjcmV0"
                          (Spec.signature_source "k"
                             (Spec.target_url "https://www.cryptopia.co.nz" "api" "GetBalance")
                             (Spec.nonce 1500000000123)
                             (Spec.content_digest json)))
                       (Spec.nonce 1500000000123))).
Proof.
  apply (authorization_header_follows_spec
           (new_Cryptopia (Some "k") (Some "c2VjcmV0") None None) "GetBalance"
           (VObj [("symbol", VStr "btc_usd")])
           (stub 1500000000123 [] (Request.Response 200 (VStr "{}")))
           "k" "c2VjcmV0");
    try reflexivity; discriminate.
Defined.

(** For a clock at or after the epoch the nonce is the millisecond
    clock truncated to seconds. *)
Lemma nonce_truncates (now_ms : Z) :
  0 <= now_ms -> Spec.nonce now_ms = Z.quot now_ms 1000.
Proof. intros H. unfold Spec.nonce. symmetry. apply Z.quot_div_nonneg; lia. Qed.

(** *** Determinism *)


Lemma append_empty_r (s : string) : s ++ "" = s.
Proof. induction s as [|c s IH]; simpl; [reflexivity | rewrite IH; reflexivity]. Qed.




(** ** The executor *)

(** A number names no member of [Object.prototype]. *)
Lemma inherited_number (n : Z) : inherited (Number_toString n) = VUndefined.
Proof.
  unfold Number_toString.
  destruct (Z.to_int n) as [d|d]; [destruct d|]; reflexivity.
Qed.

(** The message for a numeric code outside the table. *)
Lemma mapErrorMessage_unknown (n : Z) :
  assoc (Number_toString n) ERROR_CODES = None ->
  mapErrorMessage (VNum n)
  = VStr ("Unknown Cryptopia error code: " ++ Number_toString n).
Proof.
  intros H. unfold mapErrorMessage, lookup. cbn [ToString].
  rewrite H, inherited_number. reflexivity.
Qed.

(** The message of a RemoteApiError, written out. *)
Lemma RemoteApiError_message (requestDesc : string) (error_code : value) :
  message (RemoteApiError requestDesc error_code)
  = "Cryptopia.executeRequest() " ++ requestDesc ++ " returned error code "
    ++ ToString error_code ++ ", message: " ++ dquote
    ++ ToString (mapErrorMessage error_code) ++ dquote.
Proof. reflexivity. Qed.

Lemma HttpStatusError_message (statusCode : Z) (requestDesc : string) :
  message (HttpStatusError statusCode requestDesc)
  = "Cryptopia.executeRequest() HTTP status code " ++ Number_toString statusCode
    ++ " returned from " ++ requestDesc.
Proof.
  unfold HttpStatusError, VError, set_name. cbn [message map ToString sprintf].
  rewrite append_empty_r. reflexivity.
Qed.



(** The two bodies of the specification's examples, through a public
    call. *)
Example error_code_10007_rejected :
  fst (getCurrencies (new_Cryptopia None None None None)
         (stub 0 [] (Request.Response 200 (VObj [("error_code", VNum 10007)]))))
  = Rejected {| name := VNum 10007;
                message := "Cryptopia.executeRequest() GET request to url "
                           ++ "https://www.cryptopia.co.nz/api/GetCurrencies/ with parameters {}"
                           ++ " returned error code 10007, message: "
                           ++ dquote ++ "Signatures do not match" ++ dquote;
                cause := None |}.
Proof. vm_compute. reflexivity. Qed.

Example error_code_99999_rejected :
  fst (getCurrencies (new_Cryptopia None None None None)
         (stub 0 [] (Request.Response 200 (VObj [("error_code", VNum 99999)]))))
  = Rejected {| name := VNum 99999;
                message := "Cryptopia.executeRequest() GET request to url "
                           ++ "https://www.cryptopia.co.nz/api/GetCurrencies/ with parameters {}"
                           ++ " returned error code 99999, message: "
                           ++ dquote ++ "Unknown Cryptopia error code: 99999" ++ dquote;
                cause := None |}.
Proof. vm_compute. reflexivity. Qed.

(** *** HTTP status and [error_code] *)

Lemma occurrences_append (c : ascii) (a b : string) :
  occurrences c (a ++ b) = (occurrences c a + occurrences c b)%nat.
Proof.
  induction a as [|c' a IH]; simpl; [reflexivity|]. rewrite IH. lia.
Qed.

Lemma occurrences_uint (d : Decimal.uint) :
  occurrences (chr 34) (NilEmpty.string_of_uint d) = 0%nat.
Proof. induction d; simpl; auto. Qed.

(** A number's string form holds no quote character. *)
Lemma occurrences_number (n : Z) :
  occurrences (chr 34) (Number_toString n) = 0%nat.
Proof.
  unfold Number_toString, NilZero.string_of_int, NilZero.string_of_uint.
  destruct (Z.to_int n) as [d|d]; destruct d; simpl; auto using occurrences_uint.
Qed.

(** The two errors differ for the same call: the message of a
    RemoteApiError holds two quote characters more. *)
Lemma remote_api_error_not_status_error requestDesc error_code statusCode :
  RemoteApiError requestDesc error_code <> HttpStatusError statusCode requestDesc.
Proof.
  intros E. apply (f_equal message) in E.
  rewrite RemoteApiError_message, HttpStatusError_message in E.
  apply (f_equal (occurrences (chr 34))) in E.
  rewrite !occurrences_append, occurrences_number in E.
  unfold dquote in E. simpl in E. lia.
Qed.

Section StatusOutsideSuccess.

Variables (options : Request.Options) (requestDesc : string) (h : host).
Variables (statusCode : Z) (data : value).
Hypothesis reply : request h options = Request.Response statusCode data.
Hypothesis outside : statusCode < 200 \/ 300 <= statusCode.

(** The first half of the callback on a response whose status is
    outside [200, 300). *)
Lemma interpret_status :
  interpret options requestDesc h
  = (Some (HttpStatusError statusCode requestDesc), data).
Proof.
  unfold interpret. rewrite reply.
  replace ((statusCode <? 200) || (statusCode >=? 300)) with true; [reflexivity|].
  symmetry. apply orb_true_iff. destruct outside; [left | right]; lia.
Qed.

(** C7, as the code has it.  A response whose status is outside
    [200, 300) and whose data has no own [error_code] rejects the call
    with HttpStatusError: its [name] is the status code, and its
    message gives the status code and the description of the call. *)
Theorem http_status_error_without_error_code :
  has data "error_code" = false ->
  executeRequest options requestDesc h
  = (Rejected (HttpStatusError statusCode requestDesc), [options])
  /\ name (HttpStatusError statusCode requestDesc) = VNum statusCode
  /\ message (HttpStatusError statusCode requestDesc)
     = "Cryptopia.executeRequest() HTTP status code " ++ Number_toString statusCode
       ++ " returned from " ++ requestDesc.
Proof.
  intros Hnone. split; [|split].
  - unfold executeRequest. rewrite interpret_status.
    rewrite (conclude_no_error_code _ _ _ Hnone). reflexivity.
  - reflexivity.
  - apply HttpStatusError_message.
Qed.


End StatusOutsideSuccess.

Lemma http_status_503_witness :
  fst (executeRequest
         {| Request.url := "https://www.cryptopia.co.nz/api/GetCurrencies/";
            Request.method := "GET"; Request.headers := None; Request.form := None;
            Request.timeout := Some 20000; Request.qs := Some (VObj []);
            Request.json := Some (VObj []) |}
         "GET request"
         (stub 0 [] (Request.Response 503 (VStr "Service Unavailable"))))
  = Rejected (HttpStatusError 503 "GET request")
  /\ name (HttpStatusError 503 "GET request") = VNum 503.
Proof.
  destruct (http_status_error_without_error_code
              {| Request.url := "https://www.cryptopia.co.nz/api/GetCurrencies/";
                 Request.method := "GET"; Request.headers := None; Request.form := None;
                 Request.timeout := Some 20000; Request.qs := Some (VObj []);
                 Request.json := Some (VObj []) |}
              "GET request"
              (stub 0 [] (Request.Response 503 (VStr "Service Unavailable")))
              503 (VStr "Service Unavailable") eq_refl
              (or_intror (proj1 (Z.leb_le 300 503) eq_refl)) eq_refl)
    as [Hrun [Hname _]].
  split; [rewrite Hrun; reflexivity | exact Hname].
Defined.

(** A status-503 response through a public and a private call. *)
Example status_503_rejected :
  fst (getCurrencies (new_Cryptopia None None None None)
         (stub 0 [] (Request.Response 503 (VStr "Service Unavailable"))))
  = Rejected {| name := VNum 503;
                message := "Cryptopia.executeRequest() HTTP status code 503 returned from "
                           ++ "GET request to url "
                           ++ "https://www.cryptopia.co.nz/api/GetCurrencies/ with parameters {}";
                cause := None |}
  /\ fst (getBalance (new_Cryptopia (Some "k") (Some "c2VjcmV0") None None)
            (stub 0 [] (Request.Response 503 (VStr "Service Unavailable"))))
     = Rejected {| name := VNum 503;
                   message := "Cryptopia.executeRequest() HTTP status code 503 returned from "
                              ++ "POST request to url https://www.cryptopia.co.nz/api/GetBalance"
                              ++ " with method GetBalance and params {}";
                   cause := None |}.
Proof. split; vm_compute; reflexivity. Qed.

(** The body of a form request is parsed on a success status only:
    with status 503 a body text that would parse to an object with an
    [error_code] stays a string, and the HttpStatusError stands. *)
Example status_503_body_not_parsed :
  fst (getBalance (new_Cryptopia (Some "k") (Some "c2VjcmV0") None None)
         (stub 0 [("{" ++ dquote ++ "error_code" ++ dquote ++ ":10001}",
                   VObj [("error_code", VNum 10001)])]
            (Request.Response 503
               (VStr ("{" ++ dquote ++ "error_code" ++ dquote ++ ":10001}")))))
  = Rejected (HttpStatusError 503
      ("POST request to url https://www.cryptopia.co.nz/api/GetBalance"
       ++ " with method GetBalance and params {}"))
  /\ fst (getBalance (new_Cryptopia (Some "k") (Some "c2VjcmV0") None None)
            (stub 0 [("{" ++ dquote ++ "error_code" ++ dquote ++ ":10001}",
                      VObj [("error_code", VNum 10001)])]
               (Request.Response 200
                  (VStr ("{" ++ dquote ++ "error_code" ++ dquote ++ ":10001}")))))
     = Rejected (RemoteApiError
         ("POST request to url https://www.cryptopia.co.nz/api/GetBalance"
          ++ " with method GetBalance and params {}")
         (VNum 10001)).
Proof. split; vm_compute; reflexivity. Qed.

(** C7 as stated fails: a public call answered with status 503 and the
    decoded body [{error_code: 10001}] is rejected with the
    RemoteApiError of code 10001, not with HttpStatusError. *)
Lemma http_status_counterexample :
  fst (getCurrencies (new_Cryptopia None None None None)
         (stub 0 [] (Request.Response 503 (VObj [("error_code", VNum 10001)]))))
  = Rejected (RemoteApiError
      "GET request to url https://www.cryptopia.co.nz/api/GetCurrencies/ with parameters {}"
      (VNum 10001))
  /\ name (RemoteApiError
      "GET request to url https://www.cryptopia.co.nz/api/GetCurrencies/ with parameters {}"
      (VNum 10001)) = VNum 10001
  /\ mapErrorMessage (VNum 10001) = VStr "Requests are too frequent"
  /\ RemoteApiError
       "GET request to url https://www.cryptopia.co.nz/api/GetCurrencies/ with parameters {}"
       (VNum 10001)
     <> HttpStatusError 503
          "GET request to url https://www.cryptopia.co.nz/api/GetCurrencies/ with parameters {}".
Proof.
  repeat split; try (vm_compute; reflexivity).
  apply remote_api_error_not_status_error.
Qed.


(** ** Public calls: the envelope *)



(** The two envelopes of the specification's examples, and one whose
    [Error] is the empty string. *)
Example envelope_examples :
  fst (getCurrencies (new_Cryptopia None None None None)
         (stub 0 [] (Request.Response 200
                       (VObj [("Error", VStr "bad thing"); ("Data", VNull)]))))
  = Rejected {| name := VStr "Error"; message := "bad thing"; cause := None |}
  /\ fst (getCurrencies (new_Cryptopia None None None None)
            (stub 0 [] (Request.Response 200
                          (VObj [("Error", VNull); ("Data", VObj [("foo", VNum 1)])]))))
     = Resolved (VObj [("foo", VNum 1)])
  /\ fst (getCurrencies (new_Cryptopia None None None None)
            (stub 0 [] (Request.Response 200
                          (VObj [("Error", VStr ""); ("Data", VNum 7)]))))
     = Resolved (VNum 7).
Proof. repeat split; vm_compute; reflexivity. Qed.

(** ** Arrays as params *)

(** Every error the executor rejects with says so in its message. *)
Lemma interpret_error_message options requestDesc h e :
  fst (interpret options requestDesc h) = Some e ->
  prefix "Cryptopia.executeRequest()" (message e) = true
  \/ prefix "Could not parse" (message e) = true.
Proof.
  unfold interpret. destruct (request h options) as [code msg | statusCode data].
  - intros [= <-]. left. reflexivity.
  - destruct ((statusCode <? 200) || (statusCode >=? 300)).
    + intros [= <-]. left. reflexivity.
    + destruct (truthy_string (Request.form options)).
      * destruct (JSON_parse h (ToString data)); [discriminate|].
        intros [= <-]. right. reflexivity.
      * destruct (match Request.json options with
                  | Some j => ToBoolean j
                  | None => false
                  end && negb (isObject data)); [|discriminate].
        intros [= <-]. left. reflexivity.
Qed.

Lemma executeRequest_error_message options requestDesc h e :
  fst (executeRequest options requestDesc h) = Rejected e ->
  prefix "Cryptopia.executeRequest()" (message e) = true
  \/ prefix "Could not parse" (message e) = true.
Proof.
  rewrite executeRequest_settled.
  destruct (has (snd (interpret options requestDesc h)) "error_code") eqn:Hhas.
  - destruct (conclude_error_code requestDesc _ Hhas) as [c [_ Hc]].
    rewrite Hc. intros [= <-]. left. reflexivity.
  - rewrite (conclude_no_error_code _ _ _ Hhas).
    destruct (fst (interpret options requestDesc h)) as [e'|] eqn:He; [|discriminate].
    intros [= <-]. exact (interpret_error_message _ _ _ _ He).
Qed.

(** The executor never throws. *)
Lemma executeRequest_not_thrown options requestDesc h e :
  fst (executeRequest options requestDesc h) <> Thrown e.
Proof.
  rewrite executeRequest_settled. unfold conclude.
  destruct (if has _ "error_code" then _ else _); [discriminate|].
  destruct (fst (interpret options requestDesc h)); discriminate.
Qed.

Lemma invalid_parameter_message_private params :
  prefix "Cryptopia.executeRequest()"
    (message (InvalidParameterError "Cryptopia.privateRequest()" params)) = false
  /\ prefix "Could not parse"
       (message (InvalidParameterError "Cryptopia.privateRequest()" params)) = false.
Proof. split; reflexivity. Qed.

Lemma invalid_parameter_message_public params :
  prefix "Cryptopia.executeRequest()"
    (message (InvalidParameterError "Cryptopia.publicRequest()" params)) = false
  /\ prefix "Could not parse"
       (message (InvalidParameterError "Cryptopia.publicRequest()" params)) = false.
Proof. split; reflexivity. Qed.

(** C10, as the code has it.  [_.isObject] holds of every array.  A
    public call given an array sends one request, with the array as
    its query, and is not rejected with InvalidParameterError; a
    private call given an array is not rejected with
    InvalidParameterError either, and when the client has both
    credentials it sends one signed request whose body is the
    serialized array. *)
Theorem array_params_pass_validation
  (this : client) (method : string) (items : list value) (h : host) :
  isObject (VArr items) = true
  /\ (exists o,
        snd (publicRequest this method (VArr items) h) = [o]
        /\ Request.qs o = Some (VArr items))
  /\ fst (publicRequest this method (VArr items) h)
     <> Rejected (InvalidParameterError "Cryptopia.publicRequest()" (VArr items))
  /\ fst (privateRequest this method (VArr items) h)
     <> Rejected (InvalidParameterError "Cryptopia.privateRequest()" (VArr items))
  /\ (forall k s,
        key this = Some k -> k <> "" -> secret this = Some s -> s <> "" ->
        exists json,
          JSON_stringify (VArr items) = Some json
          /\ snd (privateRequest this method (VArr items) h)
             = [signed_descriptor k s this method json (getTime h)]
          /\ Request.form (signed_descriptor k s this method json (getTime h))
             = Some json).
Proof.
  split; [reflexivity|]. split; [|split; [|split]].
  - unfold publicRequest. cbn [isObject typeof ToBoolean String.eqb negb orb andb].
    change (isObject (VArr items)) with true. cbv zeta. cbn [negb].
    executor_run h. eexists. split; reflexivity.
  - unfold publicRequest. change (isObject (VArr items)) with true.
    cbv zeta. cbn [negb].
    match goal with
    | |- context [executeRequest ?o ?d h] =>
        pose proof (executeRequest_error_message o d h) as Herr;
        pose proof (executeRequest_not_thrown o d h) as Hthrow;
        destruct (executeRequest o d h) as [result sent]
    end.
    cbn [fst] in *. destruct result as [resp | e | e]; cbn [then_].
    + destruct (Get resp "Error") as [err|]; [|discriminate].
      destruct (Get resp "Data") as [d|]; [|discriminate].
      destruct (ToBoolean err); discriminate.
    + intros [= ->].
      destruct (invalid_parameter_message_public (VArr items)) as [H1 H2].
      destruct (Herr _ eq_refl) as [H | H]; congruence.
    + exfalso. exact (Hthrow e eq_refl).
  - unfold privateRequest.
    destruct (negb (truthy_string (key this)) || negb (truthy_string (secret this))).
    + cbn [fst]. intros H.
      apply (f_equal (fun r => match r with Rejected e => message e | _ => "" end)) in H.
      revert H. vm_compute. discriminate.
    + change (isObject (VArr items)) with true. cbn [negb].
      destruct (JSON_stringify (VArr items)) as [body|]; [|discriminate].
      cbv zeta.
      match goal with
      | |- context [executeRequest ?o ?d h] =>
          pose proof (executeRequest_error_message o d h) as Herr;
          destruct (fst (executeRequest o d h)) as [resp | e | e]
      end; try discriminate.
      intros [= ->].
      destruct (invalid_parameter_message_private (VArr items)) as [H1 H2].
      destruct (Herr _ eq_refl) as [H | H]; congruence.
  - intros k s Hk Hk' Hs Hs'.
    destruct (object_params_serialize (VArr items) eq_refl eq_refl) as [json Hjson].
    destruct (privateRequest_signed this method (VArr items) h k s json
                Hk Hk' Hs Hs' eq_refl Hjson) as [requestDesc E].
    exists json. split; [exact Hjson|]. split; [|reflexivity].
    rewrite E. apply executeRequest_sent.
Qed.

Lemma array_params_witness :
  exists json,
    JSON_stringify (VArr [VNum 1; VNum 2]) = Some json
    /\ snd (privateRequest (new_Cryptopia (Some "k") (Some "c2VjcmV0") None None)
              "GetBalance" (VArr [VNum 1; VNum 2])
              (stub 1500000000123 [] (Request.Response 200 (VStr "{}"))))
       = [signed_descriptor "k" "c2VjcmV0"
            (new_Cryptopia (Some "k") (Some "c2VjcmV0") None None)
            "GetBalance" json 1500000000123]
    /\ Request.form
         (signed_descriptor "k" "c2VjcmV0"
            (new_Cryptopia (Some "k") (Some "c2VjcmV0") None None)
            "GetBalance" json 1500000000123)
       = Some json.
Proof.
  apply (proj2 (proj2 (proj2 (proj2
           (array_params_pass_validation
              (new_Cryptopia (Some "k") (Some "c2VjcmV0") None None)
              "GetBalance" [VNum 1; VNum 2]
              (stub 1500000000123 [] (Request.Response 200 (VStr "{}")))))))
           "k" "c2VjcmV0");
    try reflexivity; discriminate.
Defined.

(** C10 as stated fails for a private call of a client without
    credentials: given an array it is rejected with
    MissingCredentialsError, and nothing is signed or sent. *)
Lemma array_params_counterexample :
  privateRequest (new_Cryptopia None None None None) "GetBalance"
    (VArr [VNum 1; VNum 2])
    (stub 1500000000123 [] (Request.Response 200 (VStr "{}")))
  = (Rejected MissingCredentialsError, []).
Proof. reflexivity. Qed.

(** ** Further properties of the executor and the request builders *)

(** X1.  A transport failure rejects the call with the error that
    wraps it: its [name] is the failure's [code], and its message is
    the description of the call followed by the failure's message. *)
Theorem transport_failure_rejected
  (options : Request.Options) (requestDesc : string) (h : host)
  (code : value) (msg : string) :
  request h options = Request.Failure code msg ->
  executeRequest options requestDesc h
  = (Rejected (TransportError code msg requestDesc), [options])
  /\ name (TransportError code msg requestDesc) = code
  /\ message (TransportError code msg requestDesc)
     = "Cryptopia.executeRequest() failed " ++ requestDesc ++ ": " ++ msg
  /\ cause (TransportError code msg requestDesc) = Some msg.
Proof.
  intros Hreply. repeat split.
  - unfold executeRequest, interpret. rewrite Hreply. reflexivity.
  - unfold TransportError, VError, set_name. cbn [message map ToString sprintf].
    rewrite append_empty_r. reflexivity.
Qed.

Lemma transport_failure_witness :
  fst (getCurrencies (new_Cryptopia None None None None)
         (stub 0 [] (Request.Failure (VStr "ETIMEDOUT") "timed out")))
  = Rejected (TransportError (VStr "ETIMEDOUT") "timed out"
      "GET request to url https://www.cryptopia.co.nz/api/GetCurrencies/ with parameters {}").
Proof.
  destruct (transport_failure_rejected
              {| Request.url := "https://www.cryptopia.co.nz/api/GetCurrencies/";
                 Request.method := "GET"; Request.headers := None; Request.form := None;
                 Request.timeout := Some 20000; Request.qs := Some (VObj []);
                 Request.json := Some (VObj []) |}
              "GET request to url https://www.cryptopia.co.nz/api/GetCurrencies/ with parameters {}"
              (stub 0 [] (Request.Failure (VStr "ETIMEDOUT") "timed out"))
              (VStr "ETIMEDOUT") "timed out" eq_refl) as [Hrun _].
  apply (f_equal fst) in Hrun. cbn [fst] in Hrun.
  unfold getCurrencies, publicRequest.
  change (negb (isObject (VObj []))) with false. cbv iota zeta.
  change (sprintf "%s request to url %s with parameters %s" _)
    with "GET request to url https://www.cryptopia.co.nz/api/GetCurrencies/ with parameters {}".
  change (server (new_Cryptopia None None None None) ++ "/"
          ++ publicApiPath (new_Cryptopia None None None None) ++ "/" ++ "GetCurrencies/")
    with "https://www.cryptopia.co.nz/api/GetCurrencies/".
  change (timeout (new_Cryptopia None None None None)) with 20000.
  destruct (executeRequest _ _ _) as [result sent]. cbn [fst] in *.
  rewrite Hrun. reflexivity.
Defined.

(** X3.  A private call of a client with both credentials whose
    params is a function throws a [TypeError] instead of returning a
    promise, and sends nothing: [JSON.stringify] gives [undefined] for
    a function, which the hash refuses. *)
Theorem function_params_throw
  (this : client) (method source : string) (h : host) :
  truthy_string (key this) = true -> truthy_string (secret this) = true ->
  privateRequest this method (VFun source) h
  = (Thrown (TypeError "Data must be a string or a buffer"), []).
Proof.
  intros Hk Hs. unfold privateRequest. rewrite Hk, Hs. reflexivity.
Qed.

Lemma function_params_witness :
  privateRequest (new_Cryptopia (Some "k") (Some "c2VjcmV0") None None) "GetBalance"
    (VFun "function () {}") (stub 0 [] (Request.Response 200 (VStr "{}")))
  = (Thrown (TypeError "Data must be a string or a buffer"), []).
Proof. apply function_params_throw; reflexivity. Defined.

(** A format that holds no percent sign after a prefix without one
    is printed as it is. *)
Lemma sprintf_no_percent (text : string) :
  occurrences "%" text = 0%nat -> sprintf text [] = text.
Proof.
  induction text as [|c text IH]; [reflexivity|].
  cbn [occurrences]. destruct (Ascii.eqb "%" c) eqn:Hc; [discriminate|].
  intros H. specialize (IH H).
  apply Ascii.eqb_neq in Hc.
  destruct c as [[] [] [] [] [] [] [] []];
    try (exfalso; apply Hc; reflexivity);
    cbn [sprintf]; rewrite IH; reflexivity.
Qed.

Lemma sprintf_plain (label text : string) :
  occurrences "%" text = 0%nat ->
  occurrences "%" label = 0%nat ->
  sprintf (label ++ text) [] = label ++ text.
Proof.
  intros Htext Hlabel. apply sprintf_no_percent.
  rewrite occurrences_append, Hlabel, Htext. reflexivity.
Qed.

(** X4.  On a success status a body that cannot be decoded rejects
    the call: for a form request when [JSON.parse] fails on a body
    text that holds no percent sign, with a message that quotes the
    body and the parser's complaint; for a JSON request when the data
    handed over is no object. *)
Theorem undecodable_body_rejected
  (options : Request.Options) (requestDesc : string) (h : host)
  (statusCode : Z) (data : value) :
  request h options = Request.Response statusCode data ->
  200 <= statusCode < 300 ->
  (forall m,
     truthy_string (Request.form options) = true ->
     JSON_parse h (ToString data) = SyntaxError m ->
     occurrences "%" (ToString data) = 0%nat ->
     has data "error_code" = false ->
     executeRequest options requestDesc h
     = (Rejected {| name := VStr "VError";
                    message := "Could not parse response from server: " ++ ToString data
                               ++ ": " ++ m;
                    cause := Some m |},
        [options]))
  /\ (truthy_string (Request.form options) = false ->
      Request.json options = Some (VObj []) ->
      isObject data = false ->
      executeRequest options requestDesc h
      = (Rejected (VError None
                     ("%s could not parse response from %s" ++ newline ++ "Response: %s")
                     [VStr "Cryptopia.executeRequest()"; VStr requestDesc; data]),
         [options])).
Proof.
  intros Hreply Hstatus.
  assert (Hok : (statusCode <? 200) || (statusCode >=? 300) = false)
    by (apply orb_false_iff; split; lia).
  split.
  - intros m Hform Hparse Hplain Hnone.
    unfold executeRequest, interpret. rewrite Hreply, Hok, Hform, Hparse.
    rewrite (conclude_no_error_code _ _ _ Hnone).
    unfold VError. cbn [map].
    rewrite (sprintf_plain "Could not parse response from server: " _ Hplain eq_refl).
    reflexivity.
  - intros Hform Hjson Hobj.
    assert (Hnone : has data "error_code" = false).
    { destruct (has data "error_code") eqn:Hhas; [|reflexivity].
      destruct (has_error_code_object _ Hhas) as [fields [-> _]]. discriminate Hobj. }
    unfold executeRequest, interpret. rewrite Hreply, Hok, Hform, Hjson, Hobj.
    cbn [ToBoolean andb negb].
    rewrite (conclude_no_error_code _ _ _ Hnone). reflexivity.
Qed.

Lemma undecodable_body_witness :
  fst (getCurrencies (new_Cryptopia None None None None)
         (stub 0 [] (Request.Response 200 (VStr "<html>"))))
  = Rejected (VError None
                ("%s could not parse response from %s" ++ newline ++ "Response: %s")
                [VStr "Cryptopia.executeRequest()";
                 VStr "GET request to url https://www.cryptopia.co.nz/api/GetCurrencies/ with parameters {}";
                 VStr "<html>"])
  /\ fst (executeRequest
            {| Request.url := "https://www.cryptopia.co.nz/api/GetBalance";
               Request.method := "POST"; Request.headers := None;
               Request.form := Some "{}"; Request.timeout := None;
               Request.qs := None; Request.json := None |}
            "POST request"
            (stub 0 [] (Request.Response 200 (VStr "<html>"))))
     = Rejected {| name := VStr "VError";
                   message := "Could not parse response from server: <html>: Unexpected token";
                   cause := Some "Unexpected token" |}.
Proof.
  split.
  - destruct (undecodable_body_rejected
                {| Request.url := "https://www.cryptopia.co.nz/api/GetCurrencies/";
                   Request.method := "GET"; Request.headers := None; Request.form := None;
                   Request.timeout := Some 20000; Request.qs := Some (VObj []);
                   Request.json := Some (VObj []) |}
                "GET request to url https://www.cryptopia.co.nz/api/GetCurrencies/ with parameters {}"
                (stub 0 [] (Request.Response 200 (VStr "<html>")))
                200 (VStr "<html>") eq_refl
                (conj (proj1 (Z.leb_le 200 200) eq_refl) (proj1 (Z.ltb_lt 200 300) eq_refl)))
      as [_ Hrun].
    specialize (Hrun eq_refl eq_refl eq_refl).
    apply (f_equal fst) in Hrun. cbn [fst] in Hrun.
    unfold getCurrencies, publicRequest.
    change (negb (isObject (VObj []))) with false. cbv iota zeta.
    change (sprintf "%s request to url %s with parameters %s" _)
      with "GET request to url https://www.cryptopia.co.nz/api/GetCurrencies/ with parameters {}".
    change (server (new_Cryptopia None None None None) ++ "/"
            ++ publicApiPath (new_Cryptopia None None None None) ++ "/" ++ "GetCurrencies/")
      with "https://www.cryptopia.co.nz/api/GetCurrencies/".
    change (timeout (new_Cryptopia None None None None)) with 20000.
    destruct (executeRequest _ _ _) as [result sent]. cbn [fst] in *.
    rewrite Hrun. reflexivity.
  - exact (f_equal fst
             (proj1 (undecodable_body_rejected
                       {| Request.url := "https://www.cryptopia.co.nz/api/GetBalance";
                          Request.method := "POST"; Request.headers := None;
                          Request.form := Some "{}"; Request.timeout := None;
                          Request.qs := None; Request.json := None |}
                       "POST request"
                       (stub 0 [] (Request.Response 200 (VStr "<html>")))
                       200 (VStr "<html>") eq_refl
                       (conj (proj1 (Z.leb_le 200 200) eq_refl)
                             (proj1 (Z.ltb_lt 200 300) eq_refl)))
                    "Unexpected token" eq_refl eq_refl eq_refl eq_refl)).
Defined.

(** ** The request builders, unfolded *)

Lemma publicRequest_object this method params h :
  isObject params = true ->
  publicRequest this method params h
  = (then_ (fst (executeRequest (public_descriptor this method params)
                   (public_description this method params) h)) unwrap,
     [public_descriptor this method params]).
Proof.
  intros Hobj. unfold publicRequest. rewrite Hobj. cbn [negb]. cbv zeta.
  change (sprintf "%s request to url %s with parameters %s" _)
    with (public_description this method params).
  fold (public_descriptor this method params).
  pose proof (executeRequest_sent (public_descriptor this method params)
                (public_description this method params) h) as Hsent.
  destruct (executeRequest _ _ h) as [result sent]. cbn [fst snd] in *.
  subst sent. reflexivity.
Qed.

(** What a private call does, by cases on the credentials, the params
    and their serialization. *)
Lemma privateRequest_cases this method params h :
  privateRequest this method params h
  = if negb (has_credentials this) then (Rejected MissingCredentialsError, [])
    else if negb (isObject params)
    then (Rejected (InvalidParameterError "Cryptopia.privateRequest()" params), [])
    else match JSON_stringify params with
         | None => (Thrown (TypeError "Data must be a string or a buffer"), [])
         | Some json =>
             executeRequest
               (signed_descriptor (template (key this)) (template (secret this))
                  this method json (getTime h))
               (private_description this method json) h
         end.
Proof.
  unfold privateRequest, has_credentials. rewrite negb_andb.
  destruct (negb (truthy_string (key this)) || negb (truthy_string (secret this)));
    [reflexivity|].
  destruct (negb (isObject params)); [reflexivity|].
  destruct (JSON_stringify params); reflexivity.
Qed.

(** The serialization of an array or object is never empty, so the
    [form] of a private request counts as true. *)
Lemma stringify_object_nonempty params json :
  isObject params = true -> JSON_stringify params = Some json ->
  truthy_string (Some json) = true.
Proof.
  destruct params; try discriminate; intros _ [= <-]; reflexivity.
Qed.

(** ** When the executor resolves *)

Lemma status_inside (statusCode : Z) :
  (statusCode <? 200) || (statusCode >=? 300) = false <-> 200 <= statusCode < 300.
Proof. rewrite orb_false_iff. lia. Qed.

Lemma executeRequest_resolved_inv options requestDesc h v :
  fst (executeRequest options requestDesc h) = Resolved v ->
  exists statusCode data,
    request h options = Request.Response statusCode data
    /\ 200 <= statusCode < 300
    /\ has v "error_code" = false
    /\ (if truthy_string (Request.form options)
        then JSON_parse h (ToString data) = Parsed v
        else v = data
             /\ (match Request.json options with
                 | Some j => ToBoolean j
                 | None => false
                 end = true -> isObject data = true)).
Proof.
  rewrite executeRequest_settled.
  destruct (has (snd (interpret options requestDesc h)) "error_code") eqn:Hhas.
  { destruct (conclude_error_code requestDesc _ Hhas) as [c [_ Hc]].
    rewrite Hc. discriminate. }
  rewrite (conclude_no_error_code _ _ _ Hhas).
  revert Hhas. unfold interpret.
  destruct (request h options) as [code msg | statusCode data]; [discriminate|].
  destruct ((statusCode <? 200) || (statusCode >=? 300)) eqn:Hstatus; [discriminate|].
  apply status_inside in Hstatus.
  destruct (truthy_string (Request.form options)) eqn:Hform.
  - destruct (JSON_parse h (ToString data)) as [obj | m] eqn:Hparse; [|discriminate].
    cbn [fst snd]. intros Hhas [= <-].
    exists statusCode, data. auto.
  - destruct (match Request.json options with
              | Some j => ToBoolean j
              | None => false
              end) eqn:Hjson; cbn [andb].
    + destruct (isObject data) eqn:Hobj; cbn [negb fst snd]; [|discriminate].
      intros Hhas [= <-]. exists statusCode, data. auto.
    + cbn [fst snd]. intros Hhas [= <-]. exists statusCode, data.
      repeat split; auto; try lia; discriminate.
Qed.

Lemma executeRequest_resolved_intro options requestDesc h v statusCode data :
  request h options = Request.Response statusCode data ->
  200 <= statusCode < 300 ->
  has v "error_code" = false ->
  (if truthy_string (Request.form options)
   then JSON_parse h (ToString data) = Parsed v
   else v = data
        /\ (match Request.json options with
            | Some j => ToBoolean j
            | None => false
            end = true -> isObject data = true)) ->
  fst (executeRequest options requestDesc h) = Resolved v.
Proof.
  intros Hreply Hstatus Hhas Hbody. apply status_inside in Hstatus.
  rewrite executeRequest_settled. unfold interpret. rewrite Hreply, Hstatus.
  destruct (truthy_string (Request.form options)).
  - rewrite Hbody. cbn [fst snd]. rewrite (conclude_no_error_code _ _ _ Hhas).
    reflexivity.
  - destruct Hbody as [-> Hobj].
    destruct (match Request.json options with
              | Some j => ToBoolean j
              | None => false
              end); cbn [andb].
    + rewrite (Hobj eq_refl). cbn [negb fst snd].
      rewrite (conclude_no_error_code _ _ _ Hhas). reflexivity.
    + cbn [fst snd]. rewrite (conclude_no_error_code _ _ _ Hhas). reflexivity.
Qed.

(** X5.  The executor resolves with [v] exactly when the transport
    answered with a status in [200, 300), [v] has no own [error_code],
    and [v] is the body: for a form request what [JSON.parse] makes of
    the body text, for any other request the data itself, which must be
    an object when the request asked for JSON.  This says when the
    promise is fulfilled, and nothing about the runs in which it is
    not. *)
Theorem executor_resolves_iff
  (options : Request.Options) (requestDesc : string) (h : host) (v : value) :
  fst (executeRequest options requestDesc h) = Resolved v <->
  exists statusCode data,
    request h options = Request.Response statusCode data
    /\ 200 <= statusCode < 300
    /\ has v "error_code" = false
    /\ (if truthy_string (Request.form options)
        then JSON_parse h (ToString data) = Parsed v
        else v = data
             /\ (match Request.json options with
                 | Some j => ToBoolean j
                 | None => false
                 end = true -> isObject data = true)).
Proof.
  split.
  - apply executeRequest_resolved_inv.
  - intros [statusCode [data [Hreply [Hstatus [Hhas Hbody]]]]].
    exact (executeRequest_resolved_intro _ _ _ _ _ _ Hreply Hstatus Hhas Hbody).
Qed.

(** ** When a call resolves *)

Lemma then_resolved_inv (p : outcome) (f : value -> outcome) (d : value) :
  then_ p f = Resolved d -> exists resp, p = Resolved resp /\ f resp = Resolved d.
Proof.
  destruct p as [resp | e | e]; cbn [then_]; try discriminate.
  intros H. exists resp. split; [reflexivity|].
  destruct (f resp); [exact H | discriminate H | discriminate H].
Qed.

Lemma unwrap_resolved (resp d : value) :
  unwrap resp = Resolved d <->
  exists e, Get resp "Error" = Some e /\ ToBoolean e = false /\ Get resp "Data" = Some d.
Proof.
  unfold unwrap. split.
  - destruct (Get resp "Error") as [e|]; [|discriminate].
    destruct (Get resp "Data") as [d'|]; [|discriminate].
    destruct (ToBoolean e) eqn:He; [discriminate|].
    intros [= <-]. exists e. auto.
  - intros [e [-> [-> ->]]]. reflexivity.
Qed.

(** X6.  A public call resolves with [d] exactly when its params pass
    the validation, the transport answers its one request with a
    status in [200, 300) and an object that has no own [error_code]
    and no [Error] that counts as true, and [d] is that object's
    [Data].  It never resolves with the envelope itself. *)
Theorem public_call_resolves_iff
  (this : client) (method : string) (params : value) (h : host) (d : value) :
  fst (publicRequest this method params h) = Resolved d <->
  isObject params = true
  /\ exists statusCode data e,
       request h (public_descriptor this method params)
       = Request.Response statusCode data
       /\ 200 <= statusCode < 300
       /\ isObject data = true
       /\ has data "error_code" = false
       /\ Get data "Error" = Some e
       /\ ToBoolean e = false
       /\ Get data "Data" = Some d.
Proof.
  split.
  - destruct (isObject params) eqn:Hobj.
    + rewrite (publicRequest_object _ _ _ _ Hobj). cbn [fst]. intros H.
      apply then_resolved_inv in H as [resp [Hrun Hunwrap]].
      apply executeRequest_resolved_inv in Hrun
        as [statusCode [data [Hreply [Hstatus [Hhas Hbody]]]]].
      cbn [public_descriptor Request.form Request.json truthy_string ToBoolean] in Hbody.
      destruct Hbody as [-> Hdata].
      apply unwrap_resolved in Hunwrap as [e [He [Hfalse Hd]]].
      split; [reflexivity|]. exists statusCode, data, e. auto 10.
    + unfold publicRequest. rewrite Hobj. discriminate.
  - intros [Hobj [statusCode [data [e [Hreply [Hstatus [Hdata [Hhas [He [Hfalse Hd]]]]]]]]]].
    rewrite (publicRequest_object _ _ _ _ Hobj). cbn [fst].
    rewrite (executeRequest_resolved_intro _ _ _ data statusCode data Hreply Hstatus Hhas).
    + cbn [then_].
      replace (unwrap data) with (Resolved d); [reflexivity|].
      symmetry. apply unwrap_resolved. exists e. auto.
    + cbn. auto.
Qed.

(** X7.  A private call resolves with [v] exactly when the client has
    both credentials, the params are an object that serializes, the
    transport answers the signed request with a status in [200, 300),
    [JSON.parse] makes [v] of the body text, and [v] has no own
    [error_code]. *)
Theorem private_call_resolves_iff
  (this : client) (method : string) (params : value) (h : host) (v : value) :
  fst (privateRequest this method params h) = Resolved v <->
  has_credentials this = true
  /\ isObject params = true
  /\ exists json statusCode data,
       JSON_stringify params = Some json
       /\ request h (signed_descriptor (template (key this)) (template (secret this))
                       this method json (getTime h))
          = Request.Response statusCode data
       /\ 200 <= statusCode < 300
       /\ JSON_parse h (ToString data) = Parsed v
       /\ has v "error_code" = false.
Proof.
  rewrite privateRequest_cases. split.
  - destruct (has_credentials this); [|discriminate].
    destruct (isObject params) eqn:Hobj; [|discriminate].
    destruct (JSON_stringify params) as [json|] eqn:Hjson; [|discriminate].
    cbn [negb]. intros Hrun.
    apply executeRequest_resolved_inv in Hrun
      as [statusCode [data [Hreply [Hstatus [Hhas Hbody]]]]].
    cbn [signed_descriptor Request.form] in Hbody.
    rewrite (stringify_object_nonempty _ _ Hobj Hjson) in Hbody.
    repeat split. exists json, statusCode, data. auto.
  - intros [-> [Hobj [json [statusCode [data [Hjson [Hreply [Hstatus [Hparse Hhas]]]]]]]]].
    rewrite Hobj, Hjson. cbn [negb].
    apply (executeRequest_resolved_intro _ _ _ v statusCode data Hreply Hstatus Hhas).
    cbn [signed_descriptor Request.form].
    rewrite (stringify_object_nonempty _ _ Hobj Hjson). exact Hparse.
Qed.

(** ** Where requests go *)

Lemma append_assoc (a b c : string) : (a ++ b) ++ c = a ++ b ++ c.
Proof. induction a as [|x a IH]; simpl; [reflexivity | rewrite IH; reflexivity]. Qed.

(** X9.  Every request of a client made by the constructor goes to
    [https://{hostname}/api/{method}], the hostname being the
    constructor's when it is a non-empty string and
    [www.cryptopia.co.nz] otherwise.  A private request is a POST
    whose form body is the serialized params; a public request is a GET
    whose query is the params and whose timeout is the constructor's,
    or 20000 when that is absent or zero, so never zero. *)
Theorem requests_target_the_api
  (k s hn : option string) (t : option Z) (method : string) (params : value) (h : host) :
  Forall (fun o =>
            Request.url o
            = "https://" ++ (if truthy_string hn then template hn else "www.cryptopia.co.nz")
              ++ "/api/" ++ method
            /\ Request.method o = "POST"
            /\ Request.form o = JSON_stringify params
            /\ Request.qs o = None)
    (snd (privateRequest (new_Cryptopia k s hn t) method params h))
  /\ Forall (fun o =>
               Request.url o
               = "https://" ++ (if truthy_string hn then template hn else "www.cryptopia.co.nz")
                 ++ "/api/" ++ method
               /\ Request.method o = "GET"
               /\ Request.qs o = Some params
               /\ Request.form o = None
               /\ exists ms, Request.timeout o = Some ms /\ ms <> 0
                             /\ (forall t', t = Some t' -> t' <> 0 -> ms = t')
                             /\ (t = None \/ t = Some 0 -> ms = 20000))
       (snd (publicRequest (new_Cryptopia k s hn t) method params h)).
Proof.
  split.
  - rewrite privateRequest_cases.
    destruct (negb (has_credentials _)); [constructor|].
    destruct (negb (isObject params)); [constructor|].
    destruct (JSON_stringify params) as [json|]; [|constructor].
    rewrite executeRequest_sent. constructor; [|constructor].
    cbn [signed_descriptor Request.url Request.method Request.form Request.qs].
    unfold Spec.target_url. cbn [new_Cryptopia server privateApiPath].
    rewrite append_assoc. repeat split; reflexivity.
  - destruct (isObject params) eqn:Hobj.
    + rewrite (publicRequest_object _ _ _ _ Hobj). constructor; [|constructor].
      cbn [snd public_descriptor Request.url Request.method Request.form Request.qs
           Request.timeout new_Cryptopia server publicApiPath timeout].
      rewrite append_assoc. repeat split; try reflexivity.
      destruct t as [t'|].
      * destruct (t' =? 0) eqn:Ht.
        -- exists 20000. repeat split; try lia.
           ++ intros t'' [= <-] Hne. apply Z.eqb_eq in Ht. contradiction.
        -- exists t'. apply Z.eqb_neq in Ht. repeat split; auto.
           ++ intros t'' [= <-] _. reflexivity.
           ++ intros [H | H]; [discriminate H | injection H as ->; contradiction].
      * exists 20000. repeat split; try lia. discriminate.
    + unfold publicRequest. rewrite Hobj. constructor.
Qed.

(** ** What the signature does not see *)

Lemma toLowerCase_cons (c : ascii) (s : string) :
  toLowerCase (String c s) = String (lower_char c) (toLowerCase s).
Proof. reflexivity. Qed.

Lemma toLowerCase_append (a b : string) :
  toLowerCase (a ++ b) = toLowerCase a ++ toLowerCase b.
Proof.
  induction a as [|c a IH]; [reflexivity|].
  change (String c a ++ b) with (String c (a ++ b)).
  rewrite !toLowerCase_cons, IH. reflexivity.
Qed.

Lemma encodeURIComponent_cons (c : ascii) (s : string) :
  encodeURIComponent (String c s) = encode_char c ++ encodeURIComponent s.
Proof. reflexivity. Qed.

Lemma encodeURIComponent_append (a b : string) :
  encodeURIComponent (a ++ b) = encodeURIComponent a ++ encodeURIComponent b.
Proof.
  induction a as [|c a IH]; [reflexivity|].
  change (String c a ++ b) with (String c (a ++ b)).
  rewrite !encodeURIComponent_cons, IH, append_assoc. reflexivity.
Qed.

(** Lowercasing after encoding forgets the case of the character. *)
Lemma encode_char_lower (c : ascii) :
  toLowerCase (encode_char c) = toLowerCase (encode_char (lower_char c)).
Proof.
  destruct c as [b0 b1 b2 b3 b4 b5 b6 b7].
  destruct b0, b1, b2, b3, b4, b5, b6, b7; reflexivity.
Qed.

Lemma encoded_lower_by_lower (a b : string) :
  toLowerCase a = toLowerCase b ->
  toLowerCase (encodeURIComponent a) = toLowerCase (encodeURIComponent b).
Proof.
  revert b. induction a as [|c a IH]; intros [|d b] H;
    try reflexivity; try discriminate H.
  rewrite !toLowerCase_cons in H. injection H as Hc Hrest.
  rewrite !encodeURIComponent_cons, !toLowerCase_append.
  rewrite (IH b Hrest), (encode_char_lower c), (encode_char_lower d), Hc.
  reflexivity.
Qed.

(** X10.  The signature does not see letter case in the method: two
    private calls that differ only in the case of the method's letters
    carry the same [Authorization] header, although their URLs
    differ. *)
Theorem signature_ignores_method_case
  (this : client) (method1 method2 : string) (params : value) (h : host) :
  toLowerCase method1 = toLowerCase method2 ->
  authorization_of (privateRequest this method1 params h)
  = authorization_of (privateRequest this method2 params h).
Proof.
  intros Hcase. rewrite !privateRequest_cases.
  destruct (negb (has_credentials this)); [reflexivity|].
  destruct (negb (isObject params)); [reflexivity|].
  destruct (JSON_stringify params) as [json|]; [|reflexivity].
  unfold authorization_of. rewrite !executeRequest_sent.
  unfold header. cbn [signed_descriptor Request.headers assoc String.eqb Ascii.eqb].
  cbn [assoc]. do 2 f_equal.
  unfold Spec.authorization, Spec.signature_source, Spec.target_url.
  rewrite !encodeURIComponent_append, !toLowerCase_append.
  rewrite (encoded_lower_by_lower _ _ Hcase). reflexivity.
Qed.

Lemma signature_ignores_case_witness :
  authorization_of
    (privateRequest (new_Cryptopia (Some "k") (Some "c2VjcmV0") None None)
       "GetBalance" (VObj []) (stub 1500000000123 [] (Request.Response 200 (VStr "{}"))))
  = authorization_of
      (privateRequest (new_Cryptopia (Some "k") (Some "c2VjcmV0") None None)
         "GETBALANCE" (VObj []) (stub 1500000000123 [] (Request.Response 200 (VStr "{}")))).
Proof. apply signature_ignores_method_case. reflexivity. Defined.

Lemma stringify_without_undefined (before after : list (string * value)) (k : string) :
  JSON_stringify (VObj (before ++ (k, VUndefined) :: after))
  = JSON_stringify (VObj (before ++ after)).
Proof.
  cbn [JSON_stringify]. rewrite !flat_map_app. reflexivity.
Qed.

(** X11.  A property whose value is [undefined] is not part of what a
    private call signs and sends: with or without it, the call comes
    to the same outcome and sends the same request.  So an endpoint
    method called without its optional argument, [cancelOrder(symbol)]
    for one, sends the body of the remaining properties. *)
Theorem undefined_properties_are_not_sent
  (this : client) (method : string) (before after : list (string * value))
  (k : string) (h : host) :
  privateRequest this method (VObj (before ++ (k, VUndefined) :: after)) h
  = privateRequest this method (VObj (before ++ after)) h
  /\ (forall symbol,
        cancelOrder this symbol VUndefined h
        = privateRequest this "cancel_order" (VObj [("symbol", symbol)]) h).
Proof.
  split.
  - rewrite !privateRequest_cases, stringify_without_undefined. reflexivity.
  - intros symbol. unfold cancelOrder.
    rewrite !privateRequest_cases.
    change (JSON_stringify (VObj [("symbol", symbol); ("order_id", VUndefined)]))
      with (JSON_stringify (VObj ([("symbol", symbol)] ++ ("order_id", VUndefined) :: []))).
    rewrite stringify_without_undefined. reflexivity.
Qed.

(** X12.  The nonce is the clock in whole seconds: two private calls
    made within the same second send the identical request, the same
    nonce and signature included. *)
Theorem same_second_same_request
  (this : client) (method : string) (params : value) (h1 h2 : host) :
  getTime h1 / 1000 = getTime h2 / 1000 ->
  snd (privateRequest this method params h1) = snd (privateRequest this method params h2).
Proof.
  intros Hsecond. rewrite !privateRequest_cases.
  destruct (negb (has_credentials this)); [reflexivity|].
  destruct (negb (isObject params)); [reflexivity|].
  destruct (JSON_stringify params) as [json|]; [|reflexivity].
  rewrite !executeRequest_sent.
  unfold signed_descriptor, Spec.authorization, Spec.nonce. cbv zeta.
  rewrite Hsecond. reflexivity.
Qed.

Lemma same_second_witness :
  snd (getBalance (new_Cryptopia (Some "k") (Some "c2VjcmV0") None None)
         (stub 1500000000001 [] (Request.Response 200 (VStr "{}"))))
  = snd (getBalance (new_Cryptopia (Some "k") (Some "c2VjcmV0") None None)
           (stub 1500000000999 [] (Request.Response 200 (VStr "{}")))).
Proof. apply same_second_same_request. reflexivity. Defined.

(** ** The error-code table *)

(** Every entry of the table is a non-empty string. *)
Lemma table_entries_are_messages (k : string) (msg : value) :
  assoc k ERROR_CODES = Some msg -> exists text, msg = VStr text /\ text <> "".
Proof.
  unfold ERROR_CODES. cbn [assoc]. intros H.
  repeat match type of H with
         | (if ?c then _ else _) = _ =>
             destruct c; [injection H as <-; eexists; split;
                          [reflexivity | discriminate] |]
         end.
  discriminate H.
Qed.

Lemma mapErrorMessage_listed (code : value) (msg : value) :
  assoc (ToString code) ERROR_CODES = Some msg -> mapErrorMessage code = msg.
Proof.
  intros H. destruct (table_entries_are_messages _ _ H) as [text [-> Hne]].
  unfold mapErrorMessage, lookup. rewrite H. cbn [ToBoolean].
  apply String.eqb_neq in Hne. rewrite Hne. reflexivity.
Qed.

(** X13.  A code the table lists resolves to its entry, a non-empty
    string, whether the response gives the code as a number or as the
    string of its digits; it never resolves to the unknown-code
    message. *)
Theorem listed_codes_resolve_to_their_entry (k : string) (msg : value) :
  assoc k ERROR_CODES = Some msg ->
  mapErrorMessage (VStr k) = msg
  /\ (forall n, Number_toString n = k -> mapErrorMessage (VNum n) = msg)
  /\ (exists text, msg = VStr text /\ text <> "")
  /\ msg <> VStr ("Unknown Cryptopia error code: " ++ k).
Proof.
  intros H. split; [|split; [|split]].
  - apply mapErrorMessage_listed. exact H.
  - intros n <-. apply mapErrorMessage_listed. exact H.
  - exact (table_entries_are_messages _ _ H).
  - revert H. unfold ERROR_CODES. cbn [assoc]. intros H.
    repeat match type of H with
           | (if ?c then _ else _) = _ =>
               destruct c; [injection H as <-; discriminate |]
           end.
    discriminate H.
Qed.

Lemma listed_codes_witness :
  mapErrorMessage (VStr "503") = VStr "Too many requests (Http)"
  /\ (forall n, Number_toString n = "503" ->
                mapErrorMessage (VNum n) = VStr "Too many requests (Http)").
Proof.
  destruct (listed_codes_resolve_to_their_entry "503" (VStr "Too many requests (Http)")
              eq_refl) as [H1 [H2 _]].
  split; [exact H1 | exact H2].
Defined.

(** X14.  For a numeric code the resolved message is always a
    non-empty string.  For a code that names a member of
    [Object.prototype] the table lookup finds that member, so what is
    resolved is a function and not a message. *)
Theorem error_message_kinds (n : Z) :
  (exists text, mapErrorMessage (VNum n) = VStr text /\ text <> "")
  /\ Forall (fun member => exists source, mapErrorMessage (VStr member) = VFun source)
       Object_prototype.
Proof.
  split.
  - destruct (assoc (Number_toString n) ERROR_CODES) as [msg|] eqn:H.
    + destruct (table_entries_are_messages _ _ H) as [text [-> Hne]].
      exists text. split; [|exact Hne]. apply mapErrorMessage_listed. exact H.
    + rewrite (mapErrorMessage_unknown n H). eexists. split; [reflexivity|].
      discriminate.
  - repeat constructor; eexists; vm_compute; reflexivity.
Qed.

(** ** The endpoint methods *)


(** X16.  [getKline] queries [kline] with the symbol and, in order,
    those of type, size and since that count as true; a zero size is
    left out like a missing one.  [getLendDepth] sends the very
    request of [getKline] with the symbol alone. *)
Theorem kline_query (this : client) (symbol type size since : value) (h : host) :
  getKline this symbol type size since h
  = publicRequest this "kline"
      (VObj (("symbol", symbol)
             :: filter (fun p => ToBoolean (snd p))
                  [("type", type); ("size", size); ("since", since)])) h
  /\ getLendDepth this symbol h
     = getKline this symbol VUndefined VUndefined VUndefined h.
Proof.
  split; [|reflexivity].
  unfold getKline. cbn [filter snd].
  destruct (ToBoolean type), (ToBoolean size), (ToBoolean since); reflexivity.
Qed.

(** X17.  [addTrade] signs and posts the symbol and the type and, in
    order, those of amount and price that count as true: an amount or
    price of zero is not sent at all. *)
Theorem trade_params (this : client) (symbol type amount price : value) (h : host) :
  addTrade this symbol type amount price h
  = privateRequest this "trade"
      (VObj ([("symbol", symbol); ("type", type)]
             ++ filter (fun p => ToBoolean (snd p))
                  [("amount", amount); ("price", price)])%list) h
  /\ addTrade this symbol type (VNum 0) (VNum 0) h
     = addTrade this symbol type VUndefined VUndefined h.
Proof.
  split; [|reflexivity].
  unfold addTrade. cbn [filter snd].
  destruct (ToBoolean amount), (ToBoolean price); reflexivity.
Qed.






(** ** The example script *)

Import Script.


(** ** The shape of the authentication material *)

Lemma le_bytes_length (count : nat) (x : Z) : List.length (le_bytes count x) = count.
Proof. unfold le_bytes. rewrite length_map, length_seq. reflexivity. Qed.

Lemma be_bytes_length (count : nat) (x : Z) : List.length (be_bytes count x) = count.
Proof. unfold be_bytes. rewrite length_rev. apply le_bytes_length. Qed.

(** An MD5 digest is sixteen bytes. *)
Lemma md5_length (msg : list Z) : List.length (md5 msg) = 16%nat.
Proof.
  unfold md5. destruct (fold_left md5_block _ _) as [[[a b] c] d].
  rewrite !length_app, !le_bytes_length. reflexivity.
Qed.

Lemma sha256_step_length (W st : list Z) (i : Z) :
  List.length st = 8%nat -> List.length (sha256_step W st i) = 8%nat.
Proof.
  intros H. unfold sha256_step.
  do 8 (destruct st as [|? st]; [exact H|]).
  destruct st; [reflexivity | exact H].
Qed.

Lemma sha256_steps_length (W : list Z) (rounds : list Z) (st : list Z) :
  List.length st = 8%nat ->
  List.length (fold_left (sha256_step W) rounds st) = 8%nat.
Proof.
  revert st. induction rounds as [|i rounds IH]; intros st H; [exact H|].
  cbn [fold_left]. apply IH, sha256_step_length, H.
Qed.

Lemma sha256_block_length (st block : list Z) :
  List.length st = 8%nat -> List.length (sha256_block st block) = 8%nat.
Proof.
  intros H. unfold sha256_block.
  rewrite length_map, length_combine, sha256_steps_length, H by exact H.
  reflexivity.
Qed.

Lemma sha256_blocks_length (bs : list (list Z)) (st : list Z) :
  List.length st = 8%nat ->
  List.length (fold_left sha256_block bs st) = 8%nat.
Proof.
  revert st. induction bs as [|b bs IH]; intros st H; [exact H|].
  cbn [fold_left]. apply IH, sha256_block_length, H.
Qed.

(** A SHA-256 digest, and so an HMAC-SHA256, is thirty-two bytes. *)
Lemma sha256_length (msg : list Z) : List.length (sha256 msg) = 32%nat.
Proof.
  unfold sha256.
  pose proof (sha256_blocks_length (blocks 64 (pad64 (be_bytes 8) msg)) sha256_H0 eq_refl)
    as H.
  destruct (fold_left sha256_block _ sha256_H0) as [|a st]; [discriminate H|].
  do 7 (destruct st as [|? st]; [discriminate H|]).
  destruct st; [|discriminate H].
  cbn [flat_map]. rewrite !length_app, !be_bytes_length. reflexivity.
Qed.

Lemma base64_encode_16 (l : list Z) :
  List.length l = 16%nat -> String.length (base64_encode l) = 24%nat.
Proof.
  intros H. do 16 (destruct l as [|? l]; [discriminate H|]).
  destruct l; [reflexivity | discriminate H].
Qed.

Lemma base64_encode_32 (l : list Z) :
  List.length l = 32%nat -> String.length (base64_encode l) = 44%nat.
Proof.
  intros H. do 32 (destruct l as [|? l]; [discriminate H|]).
  destruct l; [reflexivity | discriminate H].
Qed.

(** X21.  Every request a private call sends carries an
    [Authorization] header of the form [amx {key}:{signature}:{nonce}]
    whose signature is 44 base64 characters (a 32-byte HMAC), signed
    over a digest of 24 characters (a 16-byte MD5), and a
    [Content-Length] that is the byte length of the body sent. *)
Theorem authorization_shape
  (this : client) (method : string) (params : value) (h : host) :
  Forall (fun o =>
            exists signature json,
              header o "Authorization"
              = Some (VStr ("amx " ++ template (key this) ++ ":" ++ signature ++ ":"
                            ++ Number_toString (getTime h / 1000)))
              /\ String.length signature = 44%nat
              /\ Request.form o = Some json
              /\ String.length (Spec.content_digest json) = 24%nat
              /\ header o "Content-Length" = Some (VNum (Z.of_nat (String.length json))))
    (snd (privateRequest this method params h)).
Proof.
  rewrite privateRequest_cases.
  destruct (negb (has_credentials this)); [constructor|].
  destruct (negb (isObject params)); [constructor|].
  destruct (JSON_stringify params) as [json|]; [|constructor].
  rewrite executeRequest_sent. constructor; [|constructor].
  eexists _, json. split; [reflexivity|]. split; [|split; [reflexivity|split]].
  - unfold Spec.signature. apply base64_encode_32, sha256_length.
  - unfold Spec.content_digest. apply base64_encode_16, md5_length.
  - reflexivity.
Qed.

(** ** Base64: decoding what was encoded *)

Lemma forallb_range (k : nat) (P : Z -> bool) :
  forallb P (map Z.of_nat (seq 0 k)) = true ->
  forall n, 0 <= n < Z.of_nat k -> P n = true.
Proof.
  intros H n Hn. rewrite forallb_forall in H. apply H.
  apply in_map_iff. exists (Z.to_nat n). split; [lia|].
  apply in_seq. lia.
Qed.

(** A digit's character is no [=] and reads back as the digit. *)
Lemma sextets_char (n : Z) (s : string) :
  0 <= n < 64 -> sextets (String (base64_char n) s) = n :: sextets s.
Proof.
  intros Hn. cbn [sextets].
  assert (H : (negb (code (base64_char n) =? 61)
               && match unbase64 (base64_char n) with
                  | Some m => m =? n
                  | None => false
                  end) = true).
  { revert n Hn. apply (forallb_range 64). vm_compute. reflexivity. }
  apply andb_true_iff in H as [H1 H2]. apply negb_true_iff in H1. rewrite H1.
  destruct (unbase64 (base64_char n)) as [m|]; [|discriminate H2].
  apply Z.eqb_eq in H2. subst m. reflexivity.
Qed.

Lemma sextet_ranges (a b : Z) :
  byte_range a -> byte_range b ->
  0 <= Z.shiftr a 2 < 64
  /\ 0 <= Z.shiftl (Z.land a 3) 4 < 64
  /\ 0 <= Z.lor (Z.shiftl (Z.land a 3) 4) (Z.shiftr b 4) < 64
  /\ 0 <= Z.shiftl (Z.land b 15) 2 < 64
  /\ 0 <= Z.lor (Z.shiftl (Z.land a 15) 2) (Z.shiftr b 6) < 64
  /\ 0 <= Z.land b 63 < 64.
Proof.
  intros Ha Hb.
  assert (H : (let in64 := fun x => (0 <=? x) && (x <? 64) in
               in64 (Z.shiftr a 2) && in64 (Z.shiftl (Z.land a 3) 4)
               && in64 (Z.lor (Z.shiftl (Z.land a 3) 4) (Z.shiftr b 4))
               && in64 (Z.shiftl (Z.land b 15) 2)
               && in64 (Z.lor (Z.shiftl (Z.land a 15) 2) (Z.shiftr b 6))
               && in64 (Z.land b 63)) = true).
  { revert b Hb. apply (forallb_range 256 (fun b => _)).
    revert a Ha. apply (forallb_range 256 (fun a => forallb _ _)).
    vm_compute. reflexivity. }
  cbv zeta in H. rewrite !andb_true_iff in H. lia.
Qed.

(** The bytes come back from their digits: the first two of a
    group from the first two bytes, the third from the last two. *)
Lemma bytes_from_sextets (a b c : Z) :
  byte_range a -> byte_range b -> byte_range c ->
  Z.lor (Z.shiftl (Z.shiftr a 2) 2)
    (Z.shiftr (Z.lor (Z.shiftl (Z.land a 3) 4) (Z.shiftr b 4)) 4) = a
  /\ Z.lor (Z.shiftl (Z.shiftr a 2) 2) (Z.shiftr (Z.shiftl (Z.land a 3) 4) 4) = a
  /\ Z.lor (Z.shiftl (Z.land (Z.lor (Z.shiftl (Z.land a 3) 4) (Z.shiftr b 4)) 15) 4)
       (Z.shiftr (Z.shiftl (Z.land b 15) 2) 2) = b
  /\ Z.lor (Z.shiftl (Z.land (Z.lor (Z.shiftl (Z.land b 15) 2) (Z.shiftr c 6)) 3) 6)
       (Z.land c 63) = c.
Proof.
  intros Ha Hb Hc.
  assert (H1 : ((Z.lor (Z.shiftl (Z.shiftr a 2) 2)
                   (Z.shiftr (Z.lor (Z.shiftl (Z.land a 3) 4) (Z.shiftr b 4)) 4) =? a)
                && (Z.lor (Z.shiftl (Z.shiftr a 2) 2)
                      (Z.shiftr (Z.shiftl (Z.land a 3) 4) 4) =? a)
                && (Z.lor (Z.shiftl (Z.land (Z.lor (Z.shiftl (Z.land a 3) 4)
                                               (Z.shiftr b 4)) 15) 4)
                      (Z.shiftr (Z.shiftl (Z.land b 15) 2) 2) =? b)) = true).
  { revert b Hb. apply (forallb_range 256 (fun b => _)).
    revert a Ha. apply (forallb_range 256 (fun a => forallb _ _)).
    vm_compute. reflexivity. }
  assert (H2 : (Z.lor (Z.shiftl (Z.land (Z.lor (Z.shiftl (Z.land b 15) 2)
                                           (Z.shiftr c 6)) 3) 6)
                  (Z.land c 63) =? c) = true).
  { clear H1. revert c Hc. apply (forallb_range 256 (fun c => _)).
    revert b Hb. apply (forallb_range 256 (fun b => forallb _ _)).
    vm_compute. reflexivity. }
  rewrite !andb_true_iff, !Z.eqb_eq in H1. apply Z.eqb_eq in H2. tauto.
Qed.

(** The middle byte of a full group, whose second digit also holds
    bits of the first byte and whose third also holds bits of the
    third. *)
Lemma middle_byte_from_sextets (a b c : Z) :
  byte_range a -> byte_range b -> byte_range c ->
  Z.lor (Z.shiftl (Z.land (Z.lor (Z.shiftl (Z.land a 3) 4) (Z.shiftr b 4)) 15) 4)
    (Z.shiftr (Z.lor (Z.shiftl (Z.land b 15) 2) (Z.shiftr c 6)) 2) = b.
Proof.
  intros Ha Hb Hc.
  assert (Ha3 : 0 <= Z.land a 3 < Z.of_nat 4).
  { change 3 with (Z.ones 2). rewrite Z.land_ones by lia.
    apply Z.mod_pos_bound. lia. }
  assert (Hc6 : 0 <= Z.shiftr c 6 < Z.of_nat 4).
  { rewrite Z.shiftr_div_pow2 by lia. unfold byte_range in Hc.
    split; [apply Z.div_pos; lia | apply Z.div_lt_upper_bound; lia]. }
  revert Ha3 Hc6. generalize (Z.land a 3) (Z.shiftr c 6). intros x y Hx Hy.
  apply Z.eqb_eq.
  revert b Hb. apply (forallb_range 256 (fun b => _)).
  revert y Hy. apply (forallb_range 4 (fun y => forallb _ _)).
  revert x Hx. apply (forallb_range 4 (fun x => forallb (fun y => forallb _ _) _)).
  vm_compute. reflexivity.
Qed.

Lemma base64_round_trip_upto (n : nat) :
  forall l, (List.length l <= n)%nat -> Forall byte_range l ->
            base64_decode (base64_encode l) = l.
Proof.
  induction n as [n IH] using lt_wf_ind. intros l Hlen Hl.
  destruct l as [|a [|b [|c rest]]].
  - reflexivity.
  - inversion Hl as [|? ? Ha _]; subst.
    destruct (sextet_ranges a a Ha Ha) as [R1 [R2 _]].
    destruct (bytes_from_sextets a a a Ha Ha Ha) as [_ [E _]].
    unfold base64_decode.
    change (base64_encode [a])
      with (String (base64_char (Z.shiftr a 2))
              (String (base64_char (Z.shiftl (Z.land a 3) 4)) "==")).
    rewrite !sextets_char by assumption.
    change (sextets "==") with (@nil Z). cbn [bytes_of_sextets]. rewrite E. reflexivity.
  - inversion Hl as [|? ? Ha Hl']; subst. inversion Hl' as [|? ? Hb _]; subst.
    destruct (sextet_ranges a b Ha Hb) as [R1 [_ [R2 [R3 _]]]].
    destruct (bytes_from_sextets a b b Ha Hb Hb) as [E1 [_ [E2 _]]].
    unfold base64_decode.
    change (base64_encode [a; b])
      with (String (base64_char (Z.shiftr a 2))
              (String (base64_char (Z.lor (Z.shiftl (Z.land a 3) 4) (Z.shiftr b 4)))
                 (String (base64_char (Z.shiftl (Z.land b 15) 2)) "="))).
    rewrite !sextets_char by assumption.
    change (sextets "=") with (@nil Z). cbn [bytes_of_sextets]. rewrite E1, E2.
    reflexivity.
  - inversion Hl as [|? ? Ha Hl1]; subst. inversion Hl1 as [|? ? Hb Hl2]; subst.
    inversion Hl2 as [|? ? Hc Hrest]; subst.
    destruct (sextet_ranges a b Ha Hb) as [R1 [_ [R2 _]]].
    destruct (sextet_ranges b c Hb Hc) as [_ [_ [_ [_ [R3 R4]]]]].
    destruct (bytes_from_sextets a b c Ha Hb Hc) as [E1 [_ [_ E3]]].
    pose proof (middle_byte_from_sextets a b c Ha Hb Hc) as E2.
    unfold base64_decode.
    change (base64_encode (a :: b :: c :: rest))
      with (String (base64_char (Z.shiftr a 2))
              (String (base64_char (Z.lor (Z.shiftl (Z.land a 3) 4) (Z.shiftr b 4)))
                 (String (base64_char (Z.lor (Z.shiftl (Z.land b 15) 2) (Z.shiftr c 6)))
                    (String (base64_char (Z.land c 63)) (base64_encode rest))))).
    rewrite !sextets_char by assumption.
    cbn [bytes_of_sextets]. rewrite E1, E2, E3.
    fold (base64_decode (base64_encode rest)).
    cbn [List.length] in Hlen.
    rewrite (IH (List.length rest)) by (try assumption; lia). reflexivity.
Qed.

(** X22.  Decoding undoes encoding on byte strings, so a secret that
    is the base64 text of some key bytes keys the HMAC with exactly
    those bytes. *)
Theorem base64_decode_encode (bytes : list Z) (source : string) :
  Forall byte_range bytes ->
  base64_decode (base64_encode bytes) = bytes
  /\ Spec.signature (base64_encode bytes) source
     = base64_encode (hmac_sha256 bytes (bytes_of_string source)).
Proof.
  intros H.
  pose proof (base64_round_trip_upto (List.length bytes) bytes (le_n _) H) as E.
  split; [exact E|]. unfold Spec.signature. rewrite E. reflexivity.
Qed.

Lemma base64_decode_encode_witness :
  base64_decode (base64_encode [115; 101; 99; 114; 101; 116]) = [115; 101; 99; 114; 101; 116].
Proof.
  apply (base64_decode_encode [115; 101; 99; 114; 101; 116] "").
  repeat constructor; unfold byte_range; lia.
Defined.

(** ** What the signature depends on *)











